(** * The ant-design [Tag] component ([components/tag/index.tsx])

    A shallow embedding of the render function [InternalTag], of its click
    handler [handleCloseClick] and of the part of the React runtime the
    component relies on ([useState], [useEffect] with a dependency list), and
    the properties of the component proved on that embedding. *)

From Stdlib Require Import String List Bool ZArith Lia.
From stdpp Require Import base option list strings gmap.

Local Open Scope string_scope.
Set Warnings "-register-all".

(** ** JavaScript values *)

Module JS.

(** The run-time range of an optional boolean ([visible?: boolean]): the
    property can hold [undefined] or a boolean. *)
Inductive OptBool : Type :=
| Undefined
| Boolean (b : bool).

(** ToBoolean on that range. *)
Definition truthy (v : OptBool) : bool :=
  match v with
  | Boolean b => b
  | Undefined => false
  end.

(** [Object.is] on that range (what React uses to compare dependencies). *)
Definition same (v w : OptBool) : bool :=
  match v, w with
  | Undefined, Undefined => true
  | Boolean a, Boolean b => Bool.eqb a b
  | _, _ => false
  end.

(** ToBoolean of [undefined | string]. *)
Definition str_truthy (s : option string) : bool :=
  match s with
  | Some s => negb (String.eqb s "")
  | None => false
  end.

(** A template-literal hole [${x}] for [x : undefined | string]. *)
Definition hole (s : option string) : string :=
  match s with
  | Some s => s
  | None => "undefined"
  end.

End JS.

(** ** Mouse events and the callbacks that receive them *)

Module Event.

(** The two flags of a (synthetic) mouse event the component reads or
    writes. *)
Record MouseEvent : Type := mkEvent {
  propagationStopped : bool;
  defaultPrevented : bool
}.

(** A click as the browser dispatches it. *)
Definition fresh : MouseEvent :=
  {| propagationStopped := false; defaultPrevented := false |}.

(** What a callback can do to the event it receives. *)
Inductive EventOp : Type :=
| PreventDefault
| StopPropagation.

Definition apply_op (e : MouseEvent) (op : EventOp) : MouseEvent :=
  match op with
  | PreventDefault =>
      {| propagationStopped := propagationStopped e; defaultPrevented := true |}
  | StopPropagation =>
      {| propagationStopped := true; defaultPrevented := defaultPrevented e |}
  end.

Definition apply_ops (e : MouseEvent) (ops : list EventOp) : MouseEvent :=
  fold_left apply_op ops e.

(** A host callback [(e) => void]: it sees the event as it is when the
    callback is called and answers with the event methods it calls. *)
Definition Callback : Type := MouseEvent -> list EventOp.

End Event.

Export Event.

(** ** CSS properties and the [classnames] package *)

(** An inline style object: a property is absent, present and [undefined], or
    present with a value. *)
Abbreviation CSSProperties := (gmap string (option string)).

(** [{ ...a, ...b }]: the properties of [b] override those of [a]; spreading
    [undefined] adds nothing. *)
Definition spread (a : CSSProperties) (b : option CSSProperties) : CSSProperties :=
  match b with
  | Some b => b ∪ a
  | None => a
  end.

(** The background color an inline style sets: none when the property is
    absent or [undefined]. *)
Definition backgroundColor (s : CSSProperties) : option string :=
  default None (s !! "backgroundColor").

(** The style object defines the property, were it as [undefined]. *)
Definition defines (s : option CSSProperties) (property : string) : bool :=
  match s with
  | Some s => bool_decide (is_Some (s !! property))
  | None => false
  end.

Module ClassNames.

(** The arguments [InternalTag] passes to [classNames]: a string that may
    be [undefined], or an object literal with computed keys. The value of
    an entry is recorded by its truthiness. *)
Inductive ClassArg : Type :=
| Str (s : option string)
| Obj (entries : list (string * bool)).

(** [o[k] = v] on an object kept in property order: an existing key keeps
    its place and takes the new value, a new key goes last. *)
Fixpoint obj_set (k : string) (v : bool) (o : list (string * bool)) : list (string * bool) :=
  match o with
  | [] => [(k, v)]
  | (k', v') :: o' =>
      if String.eqb k' k then (k', v) :: o' else (k', v') :: obj_set k v o'
  end.

(** Evaluation of an object literal [{ [k1]: v1, [k2]: v2, ... }]. *)
Definition object_literal (entries : list (string * bool)) : list (string * bool) :=
  fold_left (fun o kv => obj_set (fst kv) (snd kv) o) entries [].

Fixpoint obj_get (k : string) (o : list (string * bool)) : option bool :=
  match o with
  | [] => None
  | (k', v') :: o' => if String.eqb k' k then Some v' else obj_get k o'
  end.

Definition keys (o : list (string * bool)) : list string := List.map fst o.

(** The keys with a truthy value, in property order. *)
Definition truthy_keys (o : list (string * bool)) : list string :=
  List.map fst (List.filter (fun kv : string * bool => snd kv) o).

Definition arg_classes (a : ClassArg) : list string :=
  match a with
  | Str s => if JS.str_truthy s then [JS.hole s] else []
  | Obj entries => truthy_keys (object_literal entries)
  end.

(** The value the last entry with key [k] gives it, if there is one. *)
Definition last_value (k : string) (entries : list (string * bool)) : option bool :=
  fold_left (fun acc kv => if String.eqb (fst kv) k then Some (snd kv) else acc)
    entries None.

(** The classes [classNames(...args)] puts in its result, in order. *)
Definition class_list (args : list ClassArg) : list string :=
  flat_map arg_classes args.

(** [classNames(...args)]: the classes joined by a space. *)
Definition classNames (args : list ClassArg) : string :=
  String.concat " " (class_list args).

End ClassNames.

(** ** React elements *)

Module React.

Inductive ElemType : Type :=
| Host (tag : string)
| Fragment
| Component (name : string).

(** The [onClick] functions that occur in the tree [InternalTag] returns:
    a function of the host, the closure [handleCloseClick] (it captures
    [onClose]), or the closure of lines 121-124 that calls the close icon's
    own [onClick] and then [handleCloseClick]. *)
Inductive Handler : Type :=
| UserHandler (cb : Callback)
| HandleCloseClick (onClose : option Callback)
| CloseIconClick (origin : option Handler) (onClose : option Callback).

(** The deprecated [visible] prop: ['visible' in props] and, when it is
    there, its value. *)
Inductive VisibleProp : Type :=
| Absent
| Present (v : JS.OptBool).

Definition in_props (v : VisibleProp) : bool :=
  match v with
  | Absent => false
  | Present _ => true
  end.

(** [props.visible]: reading an absent property gives [undefined]. *)
Definition read (v : VisibleProp) : JS.OptBool :=
  match v with
  | Absent => JS.Undefined
  | Present v => v
  end.

(** An opaque [ref] object. *)
Definition Ref : Type := nat.

(** The props of an element. [ep_attrs] holds the attributes the model does
    not look into ([component], [prefixCls], [aria-*], ...). *)
Record ElemProps : Type := mkProps {
  ep_key : option string;
  ep_ref : option Ref;
  ep_className : option string;
  ep_style : option CSSProperties;
  ep_onClick : option Handler;
  ep_visible : VisibleProp;
  ep_attrs : gmap string string
}.

Definition no_props : ElemProps :=
  {| ep_key := None; ep_ref := None; ep_className := None; ep_style := None;
     ep_onClick := None; ep_visible := Absent; ep_attrs := ∅ |}.

(** [React.ReactNode]. Numbers are integers here. *)
Inductive ReactNode : Type :=
| RUndefined
| RNull
| RBool (b : bool)
| RText (s : string)
| RNum (n : Z)
| RElement (type : ElemType) (props : ElemProps) (children : list ReactNode)
| RArray (items : list ReactNode).

(** ToBoolean of a node. *)
Definition truthy (n : ReactNode) : bool :=
  match n with
  | RUndefined | RNull => false
  | RBool b => b
  | RText s => negb (String.eqb s "")
  | RNum n => negb (Z.eqb n 0)
  | RElement _ _ _ | RArray _ => true
  end.

(** [a || b] and [a && b] on nodes. *)
Definition or_else (a b : ReactNode) : ReactNode := if truthy a then a else b.
Definition and_then (a b : ReactNode) : ReactNode := if truthy a then b else a.

(** [cond && node] for a boolean [cond]. *)
Definition when (cond : bool) (n : ReactNode) : ReactNode :=
  if cond then n else RBool false.

(** [(n as ReactElement).type === 'a']: only an element has a [type]. *)
Definition type_is_a (n : ReactNode) : bool :=
  match n with
  | RElement (Host t) _ _ => String.eqb t "a"
  | _ => false
  end.

(** The node is a [<Wave>] element. *)
Definition is_wave (n : ReactNode) : bool :=
  match n with
  | RElement (Component c) _ _ => String.eqb c "Wave"
  | _ => false
  end.

(** The node is a link element [<a>]. *)
Definition is_link (n : ReactNode) : Prop :=
  exists ps kids, n = RElement (Host "a") ps kids.

(** The node is a close control: an element whose [onClick] is
    [handleCloseClick], alone or after the icon's own handler. *)
Definition is_close_control (n : ReactNode) : bool :=
  match n with
  | RElement _ ps _ =>
      match ep_onClick ps with
      | Some (HandleCloseClick _) | Some (CloseIconClick _ _) => true
      | _ => false
      end
  | _ => false
  end.

End React.

Export React.

(** ** The props of [Tag] and the configuration context *)

(** [closable?: boolean | ({ closeIcon?: ReactNode } & AriaAttributes)]. *)
Inductive Closable : Type :=
| ClosableOmitted
| ClosableBool (b : bool)
| ClosableConfig (closeIcon : ReactNode) (aria : gmap string string).

Module Props.

(** The rest [...props] of the destructuring of [tagProps]: what is left
    of [React.HTMLAttributes] plus the deprecated [visible]. *)
Record RestProps : Type := {
  visible : VisibleProp;
  onClick : option Callback;
  attrs : gmap string string
}.

(** [TagProps], by prop name. *)
Record TagProps : Type := {
  prefixCls : option string;
  className : option string;
  rootClassName : option string;
  style : option CSSProperties;
  children : ReactNode;
  icon : ReactNode;
  color : option string;
  onClose : option Callback;
  closeIcon : ReactNode;
  closable : Closable;
  bordered : option bool;
  props : RestProps
}.

End Props.

Abbreviation TagProps := Props.TagProps.

(** The [tag] entry of the configuration context. *)
Record TagConfig : Type := {
  tag_className : option string;
  tag_style : option CSSProperties;
  tag_closable : Closable;
  tag_closeIcon : ReactNode
}.

Inductive Direction : Type := Ltr | Rtl.

(** What [InternalTag] reads from [React.useContext(ConfigContext)]. *)
Record ConfigConsumerProps : Type := {
  getPrefixCls : string -> option string -> string;
  direction : option Direction;
  tag : option TagConfig
}.

(** [process.env.NODE_ENV]. *)
Inductive NodeEnv : Type := Production | Development.

(** ** What [index.tsx] imports from the rest of the library *)

(** The [[wrapCSSVar, hashId, cssVarCls]] of [useStyle]. *)
Record StyleHook : Type := {
  wrapCSSVar : ReactNode -> ReactNode;
  hashId : string;
  cssVarCls : string
}.

(** The props a [replaceElement] callback returns. *)
Record PropsPatch : Type := {
  pp_onClick : Handler;
  pp_className : string
}.

(** The [{ closable, closeIcon }] that [pickClosable] returns. *)
Record ContextClosable : Type := {
  cc_closable : Closable;
  cc_closeIcon : ReactNode
}.

(** The argument of [useClosable]. *)
Record UseClosableParams : Type := {
  p_closable : Closable;
  p_closeIcon : ReactNode;
  p_customCloseIconRender : ReactNode -> ReactNode;
  p_defaultClosable : bool;
  p_context : option ContextClosable
}.

(** The functions [index.tsx] imports from [../_util] and [./style]. Their
    sources are not part of the component; the component is verified for
    every implementation of them. [deprecated valid old new] is
    [devUseWarning('Tag').deprecated(valid, old, new)] and answers with the
    messages this call hands to the warning utility; what reaches the
    console is up to that utility, which shows a given message once. *)
Class TagImports : Type := {
  isPresetColor : option string -> bool;
  isPresetStatusColor : option string -> bool;
  useStyle : string -> StyleHook;
  replaceElement : ReactNode -> ReactNode -> (ElemProps -> PropsPatch) -> ReactNode;
  useClosable : UseClosableParams -> bool * ReactNode;
  pickClosable : option TagConfig -> option ContextClosable;
  deprecated : bool -> string -> string -> list string
}.

(** The suffixes of the four classes that lines 90-93 switch next to the
    color class of line 89, in the same object literal. *)
Definition otherSwitches : list string := ["has-color"; "hidden"; "rtl"; "borderless"].

(** No color of the palettes is spelled like one of them. *)
Definition palette_apart `{TagImports} : Prop :=
  forall m, In m otherSwitches ->
    isPresetColor (Some m) = false /\ isPresetStatusColor (Some m) = false.

(** ** Event handlers: a state monad over the event and the [visible] state *)

Module Click.

Inductive Callee : Type := OnClose | OriginOnClick.

(** What a run of a handler does, in order. A call records the event as it
    was when the callback was called. *)
Inductive Action : Type :=
| DidStopPropagation
| DidCall (who : Callee) (seen : MouseEvent)
| DidSetVisible (v : JS.OptBool).

(** The event being handled, the [visible] state of the component (as
    [setVisible] leaves it) and the actions so far, latest last. *)
Record World : Type := {
  w_event : MouseEvent;
  w_visible : JS.OptBool;
  w_trace : list Action
}.

Definition Eff (A : Type) : Type := World -> A * World.

Definition ret {A} (a : A) : Eff A := fun w => (a, w).

Definition bind {A B} (c : Eff A) (k : A -> Eff B) : Eff B :=
  fun w => let (a, w') := c w in k a w'.

Declare Scope eff_scope.
Delimit Scope eff_scope with eff.
Notation "'do' x <~ c 'in' k" := (bind c (fun x => k))
  (at level 10, x name, c at level 100, k at level 200) : eff_scope.
Notation "c >> k" := (bind c (fun _ => k))
  (at level 61, left associativity) : eff_scope.
Local Open Scope eff_scope.

Definition log (a : Action) : Eff unit :=
  fun w => (tt, {| w_event := w_event w; w_visible := w_visible w;
                   w_trace := w_trace w ++ [a] |}).

Definition the_event : Eff MouseEvent := fun w => (w_event w, w).

Definition update_event (f : MouseEvent -> MouseEvent) : Eff unit :=
  fun w => (tt, {| w_event := f (w_event w); w_visible := w_visible w;
                   w_trace := w_trace w |}).

(** [e.stopPropagation()]. *)
Definition stopPropagation : Eff unit :=
  update_event (fun e => apply_op e StopPropagation) >> log DidStopPropagation.

(** [setVisible(v)]. *)
Definition setVisible (v : JS.OptBool) : Eff unit :=
  fun w => (tt, {| w_event := w_event w; w_visible := v;
                   w_trace := w_trace w ++ [DidSetVisible v] |}).

(** [cb?.(e)]: nothing when [cb] is [undefined]. *)
Definition call_optional (who : Callee) (cb : option Callback) : Eff unit :=
  match cb with
  | None => ret tt
  | Some cb =>
      do e <~ the_event in
      log (DidCall who e) >> update_event (fun e => apply_ops e (cb e))
  end.

(** The event after [cb?.(e)]. *)
Definition after_call (cb : option Callback) (e : MouseEvent) : MouseEvent :=
  match cb with
  | Some cb => apply_ops e (cb e)
  | None => e
  end.

Definition call_trace (who : Callee) (cb : option Callback) (e : MouseEvent) : list Action :=
  match cb with
  | Some _ => [DidCall who e]
  | None => []
  end.

(** Lines 101-109. *)
Definition handleCloseClick (onClose : option Callback) : Eff unit :=
  stopPropagation >>
  call_optional OnClose onClose >>
  (do e <~ the_event in
   if defaultPrevented e then ret tt
   else setVisible (JS.Boolean false)).

(** Lines 121-124, for a close icon whose own [onClick] is a function of
    the host. *)
Definition closeIconOnClick (originOnClick onClose : option Callback) : Eff unit :=
  call_optional OriginOnClick originOnClick >> handleCloseClick onClose.

(** What the [onClick] of an element of the returned tree does. *)
Fixpoint dispatch (h : Handler) : Eff unit :=
  match h with
  | UserHandler cb => call_optional OriginOnClick (Some cb)
  | HandleCloseClick onClose => handleCloseClick onClose
  | CloseIconClick origin onClose =>
      match origin with
      | Some h' => dispatch h'
      | None => ret tt
      end >> handleCloseClick onClose
  end.

(** Running a handler on an event, from a given [visible] state. *)
Definition run (h : Eff unit) (e : MouseEvent) (visible : JS.OptBool) : World :=
  snd (h {| w_event := e; w_visible := visible; w_trace := [] |}).

(** The event as [onClose] receives it, and as line 105 reads it, in a
    click on a close icon whose own [onClick] is [origin]. *)
Definition at_onClose (origin : option Callback) (e : MouseEvent) : MouseEvent :=
  apply_op (after_call origin e) StopPropagation.

Definition at_check (origin onClose : option Callback) (e : MouseEvent) : MouseEvent :=
  after_call onClose (at_onClose origin e).

(** The trace index of the first action satisfying [p]. *)
Fixpoint index_of (p : Action -> bool) (t : list Action) : option nat :=
  match t with
  | [] => None
  | a :: t' => if p a then Some 0 else option_map S (index_of p t')
  end.

Definition is_stop (a : Action) : bool :=
  match a with DidStopPropagation => true | _ => false end.

Definition is_call (who : Callee) (a : Action) : bool :=
  match a, who with
  | DidCall OnClose _, OnClose => true
  | DidCall OriginOnClick _, OriginOnClick => true
  | _, _ => false
  end.

Definition is_set_visible (a : Action) : bool :=
  match a with DidSetVisible _ => true | _ => false end.

End Click.

(** ** The render function [InternalTag] (lines 40-157) *)

(** The observable result of one call of the render function. *)
Record Rendered : Type := {
  output : ReactNode;
  printed : list string;
  effect : option JS.OptBool;
  deps : JS.OptBool
}.

Section InternalTag.

Context `{TagImports}.

(** [process.env.NODE_ENV], the value of [React.useContext(ConfigContext)],
    the arguments [tagProps] and [ref], and the [visible] of
    [React.useState(true)] at this render. *)
Variable env : NodeEnv.
Variable ctx : ConfigConsumerProps.
Variable tagProps : TagProps.
Variable ref : option Ref.
Variable visible : JS.OptBool.

(** Lines 59-63: the messages this render hands to the warning utility. *)
Definition warnings : list string :=
  match env with
  | Production => []
  | Development =>
      deprecated (negb (in_props (Props.visible (Props.props tagProps))))
        "visible" "visible && <Tag />"
  end.

(** Lines 71-73. *)
Definition isPreset : bool := isPresetColor (Props.color tagProps).
Definition isStatus : bool := isPresetStatusColor (Props.color tagProps).
Definition isInternalColor : bool := isPreset || isStatus.

(** [color && !isInternalColor], as a condition. *)
Definition isCustomColor : bool :=
  JS.str_truthy (Props.color tagProps) && negb isInternalColor.

(** Lines 75-79. *)
Definition tagStyle : CSSProperties :=
  spread
    (spread
       {[ "backgroundColor" := if isCustomColor then Props.color tagProps else None ]}
       (tag ctx ≫= tag_style))
    (Props.style tagProps).

(** Line 81. *)
Definition prefixCls : string := getPrefixCls ctx "tag" (Props.prefixCls tagProps).

(** Line 82. *)
Definition styleHook : StyleHook := useStyle prefixCls.

(** [bordered = true] in the destructuring. *)
Definition bordered : bool := default true (Props.bordered tagProps).

(** The object literal of lines 88-94. *)
Definition switches : list (string * bool) :=
  [ (prefixCls ++ "-" ++ JS.hole (Props.color tagProps), isInternalColor);
    (prefixCls ++ "-has-color", isCustomColor);
    (prefixCls ++ "-hidden", negb (JS.truthy visible));
    (prefixCls ++ "-rtl", match direction ctx with Some Rtl => true | _ => false end);
    (prefixCls ++ "-borderless", negb bordered) ].

(** Lines 85-99: the arguments of [classNames], and its result. *)
Definition tagClassArgs : list ClassNames.ClassArg :=
  [ ClassNames.Str (Some prefixCls);
    ClassNames.Str (tag ctx ≫= tag_className);
    ClassNames.Obj switches;
    ClassNames.Str (Props.className tagProps);
    ClassNames.Str (Props.rootClassName tagProps);
    ClassNames.Str (Some (hashId styleHook));
    ClassNames.Str (Some (cssVarCls styleHook)) ].

Definition tagClassName : string := ClassNames.classNames tagClassArgs.

(** Lines 114-127. *)
Definition customCloseIconRender (iconNode : ReactNode) : ReactNode :=
  let replacement :=
    RElement (Host "span")
      {| ep_key := None; ep_ref := None;
         ep_className := Some (prefixCls ++ "-close-icon");
         ep_style := None;
         ep_onClick := Some (HandleCloseClick (Props.onClose tagProps));
         ep_visible := Absent; ep_attrs := ∅ |}
      [iconNode] in
  replaceElement iconNode replacement (fun originProps =>
    {| pp_onClick := CloseIconClick (ep_onClick originProps) (Props.onClose tagProps);
       pp_className :=
         ClassNames.classNames
           [ ClassNames.Str (ep_className originProps);
             ClassNames.Str (Some (prefixCls ++ "-close-icon")) ] |}).

(** Lines 111-130. *)
Definition mergedCloseIcon : ReactNode :=
  snd (useClosable
         {| p_closable := Props.closable tagProps;
            p_closeIcon := Props.closeIcon tagProps;
            p_customCloseIconRender := customCloseIconRender;
            p_defaultClosable := false;
            p_context := pickClosable (tag ctx) |}).

(** Lines 132-134, as a condition. *)
Definition isNeedWave : bool :=
  bool_decide (is_Some (Props.onClick (Props.props tagProps)))
  || (React.truthy (Props.children tagProps) && type_is_a (Props.children tagProps)).

(** Line 136. *)
Definition iconNode : ReactNode := or_else (Props.icon tagProps) RNull.

(** Lines 138-145. *)
Definition kids : ReactNode :=
  if React.truthy iconNode then
    RElement Fragment no_props
      [ iconNode;
        and_then (Props.children tagProps)
          (RElement (Host "span") no_props [Props.children tagProps]) ]
  else Props.children tagProps.

Definition cmp (name key : string) : ReactNode :=
  RElement (Component name)
    {| ep_key := Some key; ep_ref := None; ep_className := None; ep_style := None;
       ep_onClick := None; ep_visible := Absent;
       ep_attrs := {[ "prefixCls" := prefixCls ]} |}
    [].

(** Lines 147-154. *)
Definition tagNode : ReactNode :=
  RElement (Host "span")
    {| ep_key := None;
       ep_ref := ref;
       ep_className := Some tagClassName;
       ep_style := Some tagStyle;
       ep_onClick := UserHandler <$> Props.onClick (Props.props tagProps);
       ep_visible := Props.visible (Props.props tagProps);
       ep_attrs := Props.attrs (Props.props tagProps) |}
    [ kids;
      mergedCloseIcon;
      when isPreset (cmp "PresetCmp" "preset");
      when isStatus (cmp "StatusCmp" "status") ].

Definition wave (child : ReactNode) : ReactNode :=
  RElement (Component "Wave")
    {| ep_key := None; ep_ref := None; ep_className := None; ep_style := None;
       ep_onClick := None; ep_visible := Absent;
       ep_attrs := {[ "component" := "Tag" ]} |}
    [child].

(** Lines 65-69: the effect registered at this render. [effect_call] is
    the [setVisible] call its body makes when it runs, if any, and
    [effect_deps] its dependency list [[props.visible]]. *)
Definition effect_call : option JS.OptBool :=
  if in_props (Props.visible (Props.props tagProps))
  then Some (read (Props.visible (Props.props tagProps)))
  else None.

Definition effect_deps : JS.OptBool := read (Props.visible (Props.props tagProps)).

(** Line 156: the argument of [wrapCSSVar], and what the function
    returns. *)
Definition feedback : ReactNode := if isNeedWave then wave tagNode else tagNode.

Definition returned : ReactNode := wrapCSSVar styleHook feedback.

(** One call of [InternalTag]: the node it returns, the warnings it asks
    for and the effect it registers. *)
Definition InternalTag : Rendered :=
  {| output := returned;
     printed := warnings;
     effect := effect_call;
     deps := effect_deps |}.

End InternalTag.

(** ** The component instance: [useState], [useEffect] and re-rendering *)

Module Runtime.

(** The hook state React keeps for one mounted [Tag]: the [visible] of
    [useState], and the dependencies of the effect as of its last run
    ([None] before the first commit). *)
Record Fiber : Type := {
  state : JS.OptBool;
  last_deps : option JS.OptBool
}.

(** [React.useState(true)] at mount. *)
Definition mount : Fiber :=
  {| state := JS.Boolean true; last_deps := None |}.

(** An effect runs after the first render and after a render whose
    dependencies differ from those of the previous one. *)
Definition deps_changed (prev : option JS.OptBool) (next : JS.OptBool) : bool :=
  match prev with
  | None => true
  | Some d => negb (JS.same d next)
  end.

(** Committing a render: run its effect when due. *)
Definition commit (r : Rendered) (f : Fiber) : Fiber :=
  if deps_changed (last_deps f) (deps r) then
    {| state := default (state f) (effect r); last_deps := Some (deps r) |}
  else f.

(** A mounted instance: the props of its last render, what that render
    returned, and its hook state. *)
Record Mounted : Type := {
  cur_props : TagProps;
  cur : Rendered;
  fiber : Fiber
}.

(** What happens to a mounted tag: the host renders it with some props, or
    the close control is clicked. [origin] is the [onClick] of the close
    icon element itself, if it has one. *)
Inductive Step : Type :=
| Render (p : TagProps)
| CloseClick (origin : option Callback) (e : MouseEvent).

(** The [visible] prop is supplied. *)
Definition controlled (p : TagProps) : Prop :=
  in_props (Props.visible (Props.props p)) = true.

(** The value the host supplies for [visible] ([props.visible]). *)
Definition supplied (p : TagProps) : JS.OptBool :=
  read (Props.visible (Props.props p)).

Definition controlled_step (s : Step) : Prop :=
  match s with
  | Render p => controlled p
  | CloseClick _ _ => True
  end.

(** The state of the instance equals the supplied value. *)
Definition mirrors (m : Mounted) : Prop :=
  state (fiber m) = supplied (cur_props m).

Section Instance.

Context `{TagImports}.
Variable env : NodeEnv.
Variable ctx : ConfigConsumerProps.
Variable ref : option Ref.

(** Render, commit, and render again when the effect changed the state
    (the second commit finds the dependencies unchanged). *)
Definition render_pass (p : TagProps) (f : Fiber) : Mounted :=
  let r := InternalTag env ctx p ref (state f) in
  let f' := commit r f in
  if JS.same (state f) (state f') then
    {| cur_props := p; cur := r; fiber := f' |}
  else
    let r' := InternalTag env ctx p ref (state f') in
    {| cur_props := p; cur := r'; fiber := commit r' f' |}.

(** The first render of a tag. *)
Definition start (p : TagProps) : Mounted := render_pass p mount.

(** A click on the close control runs the handler built by the last
    render; a state change schedules a render with the same props. *)
Definition click (m : Mounted) (origin : option Callback) (e : MouseEvent) : Mounted :=
  let w := Click.run
             (Click.closeIconOnClick origin (Props.onClose (cur_props m)))
             e (state (fiber m)) in
  if JS.same (state (fiber m)) (Click.w_visible w) then m
  else render_pass (cur_props m)
         {| state := Click.w_visible w; last_deps := last_deps (fiber m) |}.

Definition step (m : Mounted) (s : Step) : Mounted :=
  match s with
  | Render p => render_pass p (fiber m)
  | CloseClick origin e => click m origin e
  end.

Definition run_steps (m : Mounted) (steps : list Step) : Mounted :=
  fold_left step steps m.

(** An instance at rest: what is displayed is the render of its props in
    its state, and the effect last ran for the value now supplied. *)
Definition settled (m : Mounted) : Prop :=
  cur m = InternalTag env ctx (cur_props m) ref (state (fiber m))
  /\ last_deps (fiber m) = Some (supplied (cur_props m)).

End Instance.

(** Two instances behave alike: same props, same hook state, same node on
    display, same effect; they may differ in what was printed. *)
Definition alike (m1 m2 : Mounted) : Prop :=
  cur_props m1 = cur_props m2
  /\ fiber m1 = fiber m2
  /\ output (cur m1) = output (cur m2)
  /\ effect (cur m1) = effect (cur m2)
  /\ deps (cur m1) = deps (cur m2).

End Runtime.

(** ** The close-control resolution of [_util/hooks/useClosable] *)

Module UseClosable.

(** The icon shown when none is configured. *)
Definition defaultCloseIcon : ReactNode :=
  RElement (Component "CloseOutlined") no_props [].

(** Modelled from the spec: whether [useClosable] has the close control
    rendered ("if enabled, renders a close control"). The props enable it:
    a [closable] that is given decides (a boolean by its value, an "object
    with icon/ARIA attributes" by being there); with [closable] omitted, a
    close icon that is given (the "close-icon override") asks for the
    control unless it is [null] or [false]; with both omitted there is
    the default, [defaultClosable] ("Omitting closable renders no close
    control", the component passing [false]). *)
Definition enabled (closable : Closable) (closeIcon : ReactNode)
    (defaultClosable : bool) : bool :=
  match closable with
  | ClosableBool b => b
  | ClosableConfig _ _ => true
  | ClosableOmitted =>
      match closeIcon with
      | RUndefined => defaultClosable
      | RNull | RBool false => false
      | _ => true
      end
  end.

(** Modelled from the spec: the icon of the close control in
    [useClosable]: the one of the [closable] object when it has one, else
    the [closeIcon] prop, else the default icon. *)
Definition shownIcon (closable : Closable) (closeIcon : ReactNode) : ReactNode :=
  let fromProp :=
    match closeIcon with
    | RUndefined | RNull | RBool _ => defaultCloseIcon
    | _ => closeIcon
    end in
  match closable with
  | ClosableConfig RUndefined _ => fromProp
  | ClosableConfig icon _ => icon
  | _ => fromProp
  end.

(** The attributes of a [closable] object. *)
Definition ariaProps (closable : Closable) : gmap string string :=
  match closable with
  | ClosableConfig _ aria => aria
  | _ => ∅
  end.

(** Modelled from the spec: the attributes of the [closable] object are put
    on the control, on the element itself or on a [span] around what is no
    element. *)
Definition with_attrs (aria : gmap string string) (n : ReactNode) : ReactNode :=
  match n with
  | RElement t p kids =>
      RElement t
        {| ep_key := ep_key p; ep_ref := ep_ref p; ep_className := ep_className p;
           ep_style := ep_style p; ep_onClick := ep_onClick p;
           ep_visible := ep_visible p; ep_attrs := aria ∪ ep_attrs p |}
        kids
  | _ =>
      RElement (Host "span")
        {| ep_key := None; ep_ref := None; ep_className := None; ep_style := None;
           ep_onClick := None; ep_visible := Absent; ep_attrs := aria |}
        [n]
  end.

(** Modelled from the spec: [pickClosable] of [_util/hooks/useClosable];
    its source is not part of the component. It keeps, of the "global tag
    defaults" of the configuration context, the two entries that concern
    the close control. *)
Definition pickClosable (tag : option TagConfig) : option ContextClosable :=
  (fun t => {| cc_closable := tag_closable t; cc_closeIcon := tag_closeIcon t |}) <$> tag.

(** Modelled from the spec: [useClosable] of [_util/hooks/useClosable]; its
    source is not part of the component. The spec has the close control
    rendered "if enabled", configured by "closable (boolean or object with
    icon/ARIA attributes)" and a "close-icon override", and "omitted
    optional configuration handled via defaulting". It says of no entry of
    the context that it enables the control, and says "Omitting closable
    renders no close control": the model reads the props and the default,
    and takes nothing from [context]. The control is the custom render of
    the icon. *)
Definition useClosable (params : UseClosableParams) : bool * ReactNode :=
  if enabled (p_closable params) (p_closeIcon params) (p_defaultClosable params) then
    (true,
     with_attrs (ariaProps (p_closable params))
       (p_customCloseIconRender params
          (shownIcon (p_closable params) (p_closeIcon params))))
  else (false, RNull).

End UseClosable.

(** ** An implementation of the imports, to run the component

    The general properties below hold for every implementation of the
    imports; this one serves to evaluate the component on concrete inputs. *)

Module Antd.

(** The names of the palette and of the statuses of the design system. *)
Definition PresetColors : list string :=
  [ "blue"; "purple"; "cyan"; "green"; "magenta"; "pink"; "red"; "orange";
    "yellow"; "volcano"; "geekblue"; "lime"; "gold" ].

Definition PresetStatusColorTypes : list string :=
  [ "success"; "processing"; "error"; "default"; "warning" ].

Definition includes (l : list string) (x : option string) : bool :=
  match x with
  | Some x => existsb (String.eqb x) l
  | None => false
  end.

(** A palette name, or one with the [-inverse] suffix. *)
Definition isPresetColor (color : option string) : bool :=
  includes (List.map (fun c => c ++ "-inverse") PresetColors ++ PresetColors) color.

Definition isPresetStatusColor (color : option string) : bool :=
  includes PresetStatusColorTypes color.

(** [replaceElement]: the element cloned with the props the callback
    returns when the icon is an element, the replacement otherwise. *)
Definition replaceElement (element replacement : ReactNode)
    (props : ElemProps -> PropsPatch) : ReactNode :=
  match element with
  | RElement t p kids =>
      RElement t
        {| ep_key := ep_key p; ep_ref := ep_ref p;
           ep_className := Some (pp_className (props p));
           ep_style := ep_style p;
           ep_onClick := Some (pp_onClick (props p));
           ep_visible := ep_visible p; ep_attrs := ep_attrs p |}
        kids
  | _ => replacement
  end.

(** No wrapper, one hash class. *)
Definition useStyle (prefixCls : string) : StyleHook :=
  {| wrapCSSVar := fun n => n; hashId := "css-var-r0"; cssVarCls := "" |}.

(** One message handed to the warning utility when the usage is not valid;
    the utility shows a given message once, so a later render that hands
    over the same message adds nothing to the console. *)
Definition deprecated (valid : bool) (old new : string) : list string :=
  if valid then []
  else ["Warning: [antd: Tag] `" ++ old ++ "` is deprecated. Please use `" ++ new ++ "` instead."].

Definition imports : TagImports :=
  Build_TagImports isPresetColor isPresetStatusColor useStyle replaceElement
    UseClosable.useClosable UseClosable.pickClosable deprecated.

(** The context outside any [ConfigProvider]. *)
Definition defaultContext : ConfigConsumerProps :=
  {| getPrefixCls := fun suffix custom =>
       match custom with
       | Some c => if String.eqb c "" then "ant-" ++ suffix else c
       | None => "ant-" ++ suffix
       end;
     direction := None;
     tag := None |}.

(** [<Tag />]. *)
Definition bare : TagProps :=
  {| Props.prefixCls := None; Props.className := None; Props.rootClassName := None;
     Props.style := None; Props.children := RUndefined; Props.icon := RUndefined;
     Props.color := None; Props.onClose := None; Props.closeIcon := RUndefined;
     Props.closable := ClosableOmitted; Props.bordered := None;
     Props.props := {| Props.visible := Absent; Props.onClick := None; Props.attrs := ∅ |} |}.

(** [<Tag closable>], [<Tag visible={v} closable>],
    [<Tag closable onClose={(e) => e.preventDefault()}>],
    [<Tag color={c} style={style}>]. *)
Definition closableTag : TagProps :=
  {| Props.prefixCls := None; Props.className := None; Props.rootClassName := None;
     Props.style := None; Props.children := RText "label"; Props.icon := RUndefined;
     Props.color := None; Props.onClose := None; Props.closeIcon := RUndefined;
     Props.closable := ClosableBool true; Props.bordered := None;
     Props.props := {| Props.visible := Absent; Props.onClick := None; Props.attrs := ∅ |} |}.

Definition controlledTag (v : bool) : TagProps :=
  {| Props.prefixCls := None; Props.className := None; Props.rootClassName := None;
     Props.style := None; Props.children := RText "label"; Props.icon := RUndefined;
     Props.color := None; Props.onClose := None; Props.closeIcon := RUndefined;
     Props.closable := ClosableBool true; Props.bordered := None;
     Props.props :=
       {| Props.visible := Present (JS.Boolean v); Props.onClick := None;
          Props.attrs := ∅ |} |}.

Definition keptTag : TagProps :=
  {| Props.prefixCls := None; Props.className := None; Props.rootClassName := None;
     Props.style := None; Props.children := RText "label"; Props.icon := RUndefined;
     Props.color := None; Props.onClose := Some (fun _ => [PreventDefault]);
     Props.closeIcon := RUndefined;
     Props.closable := ClosableBool true; Props.bordered := None;
     Props.props := {| Props.visible := Absent; Props.onClick := None; Props.attrs := ∅ |} |}.

Definition coloredTag (c : string) (style : option CSSProperties) : TagProps :=
  {| Props.prefixCls := None; Props.className := None; Props.rootClassName := None;
     Props.style := style; Props.children := RText "label"; Props.icon := RUndefined;
     Props.color := Some c; Props.onClose := None; Props.closeIcon := RUndefined;
     Props.closable := ClosableOmitted; Props.bordered := None;
     Props.props := {| Props.visible := Absent; Props.onClick := None; Props.attrs := ∅ |} |}.

End Antd.

(** ** Further vocabulary *)

(** A render without the [visible] prop, or a click. *)
Definition uncontrolled_step (s : Runtime.Step) : Prop :=
  match s with
  | Runtime.Render p => Props.visible (Props.props p) = Absent
  | Runtime.CloseClick _ _ => True
  end.

(** The number of calls of a callback in a trace. *)
Definition calls (who : Click.Callee) (t : list Click.Action) : nat :=
  length (List.filter (Click.is_call who) t).

(** The props of an element cloned with the props a callback returns. *)
Definition patched (ps : ElemProps) (patch : PropsPatch) : ElemProps :=
  {| ep_key := ep_key ps; ep_ref := ep_ref ps;
     ep_className := Some (pp_className patch);
     ep_style := ep_style ps;
     ep_onClick := Some (pp_onClick patch);
     ep_visible := ep_visible ps; ep_attrs := ep_attrs ps |}.

(** What lines 114-127 rely on in [replaceElement]: it answers with the
    replacement, or with the element cloned with the props of the
    callback. *)
Definition clone_or_replace `{TagImports} : Prop :=
  forall el rep f,
    replaceElement el rep f = rep
    \/ exists t ps kids,
         el = RElement t ps kids
         /\ replaceElement el rep f = RElement t (patched ps (f ps)) kids.

Module Samples.

(** [<Tag visible={undefined}>]. *)
Definition undefinedVisible : TagProps :=
  {| Props.prefixCls := None; Props.className := None; Props.rootClassName := None;
     Props.style := None; Props.children := RText "label"; Props.icon := RUndefined;
     Props.color := None; Props.onClose := None; Props.closeIcon := RUndefined;
     Props.closable := ClosableOmitted; Props.bordered := None;
     Props.props :=
       {| Props.visible := Present JS.Undefined; Props.onClick := None;
          Props.attrs := ∅ |} |}.

(** [<Tag color="">]. *)
Definition emptyColor : TagProps := Antd.coloredTag "" None.

(** [(e) => e.preventDefault()]. *)
Definition preventing : Callback := fun _ => [PreventDefault].

(** [<span onClick={(e) => e.preventDefault()}>x</span>], a close icon with
    an [onClick] of its own. *)
Definition preventingIcon : ReactNode :=
  RElement (Host "span")
    {| ep_key := None; ep_ref := None; ep_className := None; ep_style := None;
       ep_onClick := Some (UserHandler preventing);
       ep_visible := Absent; ep_attrs := ∅ |}
    [RText "x"].

(** A click that reaches the close control already default-prevented. *)
Definition preventedClick : MouseEvent :=
  {| propagationStopped := false; defaultPrevented := true |}.

End Samples.

(** * Properties *)

(** ** Strings and object literals *)

Lemma append_inj_r (p a b : string) : p ++ a = p ++ b -> a = b.
Proof.
  induction p as [|c p IH]; simpl; [done|].
  intros Heq. injection Heq as Heq. by apply IH.
Qed.

Lemma append_ne (p a b : string) : a <> b -> p ++ a <> p ++ b.
Proof. intros Hne Heq. by apply Hne, (append_inj_r p). Qed.

Module ClassNamesFacts.
Import ClassNames.

Lemma obj_get_set_eq k v o : obj_get k (obj_set k v o) = Some v.
Proof.
  induction o as [|[k' v'] o IH]; simpl.
  - by rewrite String.eqb_refl.
  - destruct (String.eqb k' k) eqn:E; simpl; rewrite E; [done | apply IH].
Qed.

Lemma obj_get_set_ne k k' v o : k <> k' -> obj_get k' (obj_set k v o) = obj_get k' o.
Proof.
  intros Hne. induction o as [|[k0 v0] o IH]; simpl.
  - destruct (String.eqb_spec k k'); [done | done].
  - destruct (String.eqb_spec k0 k) as [->|Hk]; simpl.
    + destruct (String.eqb_spec k k'); [done | done].
    + destruct (String.eqb k0 k'); [done | apply IH].
Qed.

Lemma keys_obj_set_old k v o : k ∈ keys o -> keys (obj_set k v o) = keys o.
Proof.
  unfold keys. induction o as [|[k0 v0] o IH]; cbn [obj_set List.map fst]; intros Hin.
  - inversion Hin.
  - destruct (String.eqb_spec k0 k) as [->|Hk]; cbn [List.map fst]; [done|].
    f_equal. apply IH. inversion Hin; [congruence | done].
Qed.

Lemma keys_obj_set_new k v o : k ∉ keys o -> keys (obj_set k v o) = (keys o ++ [k])%list.
Proof.
  unfold keys. induction o as [|[k0 v0] o IH]; cbn [obj_set List.map fst]; intros Hin; [done|].
  destruct (String.eqb_spec k0 k) as [->|Hk]; cbn [List.map fst].
  - exfalso. apply Hin. by left.
  - cbn [app]. f_equal. apply IH. intros Hk'. apply Hin. by right.
Qed.

Lemma NoDup_obj_set k v o : NoDup (keys o) -> NoDup (keys (obj_set k v o)).
Proof.
  intros Hnd. destruct (decide (k ∈ keys o)) as [Hin|Hin].
  - by rewrite keys_obj_set_old.
  - rewrite keys_obj_set_new by done.
    apply NoDup_app. split_and!; [done | | apply NoDup_singleton].
    intros x Hx Hx'. apply list_elem_of_singleton in Hx'. by subst.
Qed.

Lemma truthy_keys_get k o :
  NoDup (keys o) -> In k (truthy_keys o) <-> obj_get k o = Some true.
Proof.
  induction o as [|[k0 v0] o IH]; simpl; intros Hnd.
  - split; [done | done].
  - apply NoDup_cons in Hnd as [Hk0 Hnd]. specialize (IH Hnd).
    assert (Hget : k0 = k -> obj_get k o = None).
    { intros ->. clear -Hk0. induction o as [|[k1 v1] o IH]; simpl; [done|].
      destruct (String.eqb_spec k1 k) as [->|].
      - exfalso. apply Hk0. by left.
      - apply IH. intros Hk. apply Hk0. by right. }
    unfold truthy_keys in *. simpl.
    destruct (String.eqb_spec k0 k) as [->|Hne].
    + destruct v0; simpl.
      * split; [done | by left].
      * rewrite IH, Hget by done. split; [done | done].
    + destruct v0; simpl; rewrite IH; [|done].
      split; [by intros [?|?] | by right].
Qed.

Lemma object_literal_fold k entries o :
  obj_get k (fold_left (fun o kv => obj_set (fst kv) (snd kv) o) entries o)
  = fold_left (fun acc kv => if String.eqb (fst kv) k then Some (snd kv) else acc)
      entries (obj_get k o).
Proof.
  revert o. induction entries as [|[k0 v0] entries IH]; intros o; simpl; [done|].
  rewrite IH. f_equal.
  destruct (String.eqb_spec k0 k) as [->|Hne].
  - apply obj_get_set_eq.
  - by apply obj_get_set_ne.
Qed.

Lemma NoDup_object_literal_fold entries o :
  NoDup (keys o) ->
  NoDup (keys (fold_left (fun o kv => obj_set (fst kv) (snd kv) o) entries o)).
Proof.
  revert o. induction entries as [|[k0 v0] entries IH]; intros o Hnd; simpl; [done|].
  by apply IH, NoDup_obj_set.
Qed.

(** A key is among the classes of an object literal exactly when the last
    entry that names it is truthy. *)
Lemma object_literal_classes k entries :
  In k (truthy_keys (object_literal entries)) <-> last_value k entries = Some true.
Proof.
  unfold object_literal, last_value.
  rewrite truthy_keys_get by (apply NoDup_object_literal_fold, NoDup_nil_2).
  by rewrite object_literal_fold.
Qed.

End ClassNamesFacts.

(** ** The click handler *)

Module ClickFacts.
Import Click.

Lemma apply_op_stopped e op :
  propagationStopped e = true -> propagationStopped (apply_op e op) = true.
Proof. by destruct op. Qed.

Lemma apply_ops_stopped ops e :
  propagationStopped e = true -> propagationStopped (apply_ops e ops) = true.
Proof.
  unfold apply_ops. revert e.
  induction ops as [|op ops IH]; intros e He; simpl; [done|].
  by apply IH, apply_op_stopped.
Qed.

Lemma apply_ops_prevented_from ops e :
  defaultPrevented e = true -> defaultPrevented (apply_ops e ops) = true.
Proof.
  unfold apply_ops. revert e.
  induction ops as [|op ops IH]; intros e He; simpl; [done|].
  apply IH. by destruct op.
Qed.

(** A callback that calls [preventDefault] leaves the event prevented. *)
Lemma apply_ops_prevented ops e :
  In PreventDefault ops -> defaultPrevented (apply_ops e ops) = true.
Proof.
  unfold apply_ops. revert e.
  induction ops as [|op ops IH]; intros e; simpl; [done|].
  intros [->|Hin]; [|by apply IH].
  by apply (apply_ops_prevented_from ops).
Qed.

Lemma after_call_stopped cb e :
  propagationStopped e = true -> propagationStopped (after_call cb e) = true.
Proof. destruct cb; simpl; [apply apply_ops_stopped | done]. Qed.

Lemma at_onClose_stopped origin e : propagationStopped (at_onClose origin e) = true.
Proof. done. Qed.

(** What a click on the close control does, in full. *)
Lemma run_closeIconOnClick origin onClose e v :
  run (closeIconOnClick origin onClose) e v =
    let e2 := at_check origin onClose e in
    {| w_event := e2;
       w_visible := if defaultPrevented e2 then v else JS.Boolean false;
       w_trace :=
         (call_trace OriginOnClick origin e
          ++ DidStopPropagation :: call_trace OnClose onClose (at_onClose origin e)
          ++ if defaultPrevented e2 then [] else [DidSetVisible (JS.Boolean false)])%list |}.
Proof.
  unfold run, closeIconOnClick, handleCloseClick, at_check, at_onClose.
  destruct origin as [f|], onClose as [g|]; cbn;
    match goal with |- context [defaultPrevented ?x] => destruct (defaultPrevented x) end;
    reflexivity.
Qed.

(** Without an [onClick] of its own the close control runs
    [handleCloseClick] itself. *)
Lemma run_handleCloseClick onClose e v :
  run (handleCloseClick onClose) e v = run (closeIconOnClick None onClose) e v.
Proof. reflexivity. Qed.

(** The handlers of the tree are these two. *)
Lemma dispatch_closeIconClick origin onClose e v :
  run (dispatch (CloseIconClick (UserHandler <$> origin) onClose)) e v
  = run (closeIconOnClick origin onClose) e v.
Proof. by destruct origin. Qed.

Lemma dispatch_handleCloseClick onClose e v :
  run (dispatch (HandleCloseClick onClose)) e v = run (closeIconOnClick None onClose) e v.
Proof. reflexivity. Qed.

End ClickFacts.

(** ** The instance between events *)

Module RuntimeFacts.
Import Runtime.

Lemma same_eq v w : JS.same v w = true <-> v = w.
Proof.
  destruct v as [|a], w as [|b]; simpl; try (split; [done | done]).
  rewrite Bool.eqb_true_iff. split; [by intros -> | by intros [= ->]].
Qed.

Lemma same_refl v : JS.same v v = true.
Proof. by apply same_eq. Qed.

Section Instance.

Context `{TagImports}.
Variable env : NodeEnv.
Variable ctx : ConfigConsumerProps.
Variable ref : option Ref.

Lemma deps_InternalTag p v : deps (InternalTag env ctx p ref v) = supplied p.
Proof. reflexivity. Qed.

Lemma effect_InternalTag p v :
  effect (InternalTag env ctx p ref v)
  = match Props.visible (Props.props p) with
    | Present w => Some w
    | Absent => None
    end.
Proof. unfold InternalTag, effect_call; simpl. by destruct (Props.visible _). Qed.

(** The state a render pass leaves: the effect runs when the supplied
    value is new, and then copies it when the prop is there. *)
Lemma render_pass_state p f :
  state (fiber (render_pass env ctx ref p f))
  = if deps_changed (last_deps f) (supplied p)
    then match Props.visible (Props.props p) with
         | Present w => w
         | Absent => state f
         end
    else state f.
Proof.
  unfold render_pass, commit. rewrite !deps_InternalTag, !effect_InternalTag.
  destruct (deps_changed (last_deps f) (supplied p)) eqn:Hch; simpl.
  - destruct (Props.visible (Props.props p)) as [|w] eqn:Hv; simpl.
    + by rewrite same_refl.
    + destruct (JS.same (state f) w) eqn:Hs; simpl; [done|].
      by rewrite same_refl.
  - by rewrite same_refl.
Qed.

Lemma render_pass_props p f : cur_props (render_pass env ctx ref p f) = p.
Proof. unfold render_pass. by destruct (JS.same _ _). Qed.

Lemma render_pass_settled p f : settled env ctx ref (render_pass env ctx ref p f).
Proof.
  unfold settled, render_pass, commit. rewrite !deps_InternalTag.
  destruct (deps_changed (last_deps f) (supplied p)) eqn:Hch; simpl.
  - destruct (JS.same (state f) _) eqn:Hs; simpl.
    + apply same_eq in Hs. by rewrite <- Hs.
    + by rewrite same_refl.
  - rewrite same_refl. simpl. split; [done|].
    unfold deps_changed in Hch. destruct (last_deps f) as [d|]; [|done].
    apply negb_false_iff, same_eq in Hch. by rewrite Hch.
Qed.

Lemma click_props m origin e : cur_props (click env ctx ref m origin e) = cur_props m.
Proof. unfold click. destruct (JS.same _ _); [done | apply render_pass_props]. Qed.

Lemma click_state m origin e :
  settled env ctx ref m ->
  state (fiber (click env ctx ref m origin e))
  = Click.w_visible
      (Click.run (Click.closeIconOnClick origin (Props.onClose (cur_props m)))
         e (state (fiber m))).
Proof.
  intros [_ Hdeps]. unfold click.
  destruct (JS.same _ _) eqn:Hs; [by apply same_eq in Hs|].
  rewrite render_pass_state. simpl. rewrite Hdeps. simpl. by rewrite same_refl.
Qed.

Lemma click_settled m origin e :
  settled env ctx ref m -> settled env ctx ref (click env ctx ref m origin e).
Proof.
  intros Hm. unfold click. destruct (JS.same _ _); [done | apply render_pass_settled].
Qed.

Lemma step_settled m s :
  settled env ctx ref m -> settled env ctx ref (step env ctx ref m s).
Proof. destruct s; simpl; [intros _; apply render_pass_settled | apply click_settled]. Qed.

Lemma run_steps_settled steps m :
  settled env ctx ref m -> settled env ctx ref (run_steps env ctx ref m steps).
Proof.
  unfold run_steps. revert m.
  induction steps as [|s steps IH]; intros m Hm; simpl; [done|].
  by apply IH, step_settled.
Qed.

Lemma reachable_settled p0 steps :
  settled env ctx ref (run_steps env ctx ref (start env ctx ref p0) steps).
Proof. apply run_steps_settled, render_pass_settled. Qed.

End Instance.

End RuntimeFacts.

(** ** The classes of the tag *)

Module TagClassFacts.
Import ClassNames ClassNamesFacts.

Lemma eqb_append_l (p a b : string) : String.eqb (p ++ a) (p ++ b) = String.eqb a b.
Proof.
  destruct (String.eqb_spec a b) as [->|Hne].
  - apply String.eqb_refl.
  - apply String.eqb_neq. by apply append_ne.
Qed.

Lemma in_class_list x a args : In a args -> In x (arg_classes a) -> In x (class_list args).
Proof. intros Ha Hx. apply in_flat_map. eauto. Qed.

Section Classes.

Context `{TagImports}.
Variable ctx : ConfigConsumerProps.
Variable tagProps : TagProps.
Variable visible : JS.OptBool.

(** A class of the object literal of lines 88-94 is a class of the tag. *)
Lemma switch_class k :
  last_value k (switches ctx tagProps visible) = Some true ->
  In k (class_list (tagClassArgs ctx tagProps visible)).
Proof.
  intros Hk. apply (in_class_list _ (Obj (switches ctx tagProps visible))).
  - unfold tagClassArgs. simpl. tauto.
  - by apply object_literal_classes.
Qed.

Lemma hidden_value :
  last_value (prefixCls ctx tagProps ++ "-hidden") (switches ctx tagProps visible)
  = Some (negb (JS.truthy visible)).
Proof.
  unfold last_value, switches. cbn [fold_left fst snd].
  by rewrite !eqb_append_l.
Qed.

Lemma has_color_value :
  last_value (prefixCls ctx tagProps ++ "-has-color") (switches ctx tagProps visible)
  = Some (isCustomColor tagProps).
Proof.
  unfold last_value, switches. cbn [fold_left fst snd].
  by rewrite !eqb_append_l.
Qed.

(** The color class is switched by [isInternalColor] unless the color is
    spelled like one of the four other switches. *)
Lemma color_value c :
  Props.color tagProps = Some c ->
  ~ In c otherSwitches ->
  last_value (prefixCls ctx tagProps ++ "-" ++ c) (switches ctx tagProps visible)
  = Some (isInternalColor tagProps).
Proof.
  intros Hc Hother.
  assert (H1 : String.eqb "has-color" c = false).
  { apply String.eqb_neq. intros <-. apply Hother. simpl. tauto. }
  assert (H2 : String.eqb "hidden" c = false).
  { apply String.eqb_neq. intros <-. apply Hother. simpl. tauto. }
  assert (H3 : String.eqb "rtl" c = false).
  { apply String.eqb_neq. intros <-. apply Hother. simpl. tauto. }
  assert (H4 : String.eqb "borderless" c = false).
  { apply String.eqb_neq. intros <-. apply Hother. simpl. tauto. }
  unfold last_value, switches. rewrite Hc. cbn [fold_left fst snd JS.hole].
  change "-has-color" with ("-" ++ "has-color").
  change "-hidden" with ("-" ++ "hidden").
  change "-rtl" with ("-" ++ "rtl").
  change "-borderless" with ("-" ++ "borderless").
  rewrite !eqb_append_l.
  by rewrite H1, H2, H3, H4, String.eqb_refl.
Qed.

(** The classes the object literal can give: the color class, when the
    color is a preset or a status color, and the four others. *)
Lemma switch_classes_are k :
  In k (arg_classes (Obj (switches ctx tagProps visible))) ->
  (k = prefixCls ctx tagProps ++ "-" ++ JS.hole (Props.color tagProps)
   /\ isInternalColor tagProps = true)
  \/ exists m, In m otherSwitches /\ k = prefixCls ctx tagProps ++ "-" ++ m.
Proof.
  cbn [arg_classes]. rewrite object_literal_classes.
  unfold last_value, switches. cbn [fold_left fst snd].
  destruct (String.eqb_spec (prefixCls ctx tagProps ++ "-borderless") k) as [<-|_].
  { intros _. right. exists "borderless". simpl. tauto. }
  destruct (String.eqb_spec (prefixCls ctx tagProps ++ "-rtl") k) as [<-|_].
  { intros _. right. exists "rtl". simpl. tauto. }
  destruct (String.eqb_spec (prefixCls ctx tagProps ++ "-hidden") k) as [<-|_].
  { intros _. right. exists "hidden". simpl. tauto. }
  destruct (String.eqb_spec (prefixCls ctx tagProps ++ "-has-color") k) as [<-|_].
  { intros _. right. exists "has-color". simpl. tauto. }
  destruct (String.eqb_spec
              (prefixCls ctx tagProps ++ "-" ++ JS.hole (Props.color tagProps)) k)
    as [<-|_]; [|done].
  intros [= ->]. by left.
Qed.

End Classes.

End TagClassFacts.

(** * The component's properties *)

Section CloseControl.

Import Click ClickFacts Runtime RuntimeFacts.

Context `{TagImports}.
Variable env : NodeEnv.
Variable ctx : ConfigConsumerProps.
Variable ref : option Ref.

(** C10. A click on the close control stops the propagation of the event,
    whatever [onClose] is and whatever it does: the event ends with its
    propagation stopped; [stopPropagation] comes in the trace before any
    call of [onClose], which receives an event already stopped; and in
    [handleCloseClick] it is the first thing done. *)
Theorem close_click_stops_propagation_first
    (origin onClose : option Callback) (e : MouseEvent) (v : JS.OptBool) :
  let w := run (closeIconOnClick origin onClose) e v in
  propagationStopped (w_event w) = true
  /\ (exists i, index_of is_stop (w_trace w) = Some i
                /\ forall j, index_of (is_call OnClose) (w_trace w) = Some j -> i < j)
  /\ (forall seen, In (DidCall OnClose seen) (w_trace w) -> propagationStopped seen = true)
  /\ head (w_trace (run (handleCloseClick onClose) e v)) = Some DidStopPropagation.
Proof.
  rewrite run_handleCloseClick, !run_closeIconOnClick. cbn zeta. cbn [w_event w_trace].
  split_and!.
  - unfold at_check. apply after_call_stopped, at_onClose_stopped.
  - destruct origin as [f|], onClose as [g|]; cbn [call_trace app];
      destruct (defaultPrevented _); cbn;
      eexists; (split; [reflexivity|]); intros j [= <-]; lia.
  - intros seen Hin. apply in_app_or in Hin as [Hin|Hin].
    { by destruct origin; simpl in Hin; [destruct Hin as [?|[]]|]. }
    destruct Hin as [?|Hin]; [done|].
    apply in_app_or in Hin as [Hin|Hin].
    + destruct onClose; simpl in Hin; [|done].
      destruct Hin as [[= <-]|[]]. apply at_onClose_stopped.
    + destruct (defaultPrevented _); simpl in Hin; [done|]. by destruct Hin as [?|[]].
  - done.
Qed.

(** C3. When the [onClose] callback calls [preventDefault] on the click it
    receives, the click changes nothing: the instance is as it was (same
    state, same output), although the callback was called; and in any
    click, [setVisible] is called only after [onClose] and only when the
    event is not prevented once [onClose] has returned. *)
Theorem prevented_close_click_keeps_tag
    (m : Mounted) (origin : option Callback) (e : MouseEvent) (cb : Callback) :
  Props.onClose (cur_props m) = Some cb ->
  In PreventDefault (cb (at_onClose origin e)) ->
  let w := run (closeIconOnClick origin (Some cb)) e (state (fiber m)) in
  step env ctx ref m (CloseClick origin e) = m
  /\ w_visible w = state (fiber m)
  /\ In (DidCall OnClose (at_onClose origin e)) (w_trace w)
  /\ index_of is_set_visible (w_trace w) = None
  /\ (forall (cb' : Callback) (e' : MouseEvent) (v' : JS.OptBool) (j : nat),
        let w' := run (closeIconOnClick origin (Some cb')) e' v' in
        index_of is_set_visible (w_trace w') = Some j ->
        defaultPrevented (at_check origin (Some cb') e') = false
        /\ exists i, index_of (is_call OnClose) (w_trace w') = Some i /\ i < j).
Proof.
  intros Hcb Hprev.
  assert (Hdp : defaultPrevented (at_check origin (Some cb) e) = true).
  { unfold at_check, after_call. by apply apply_ops_prevented. }
  cbn zeta. split_and!.
  - cbn [step]. unfold click. rewrite Hcb, run_closeIconOnClick.
    cbn zeta. cbn [w_visible]. by rewrite Hdp, same_refl.
  - rewrite run_closeIconOnClick. cbn zeta. cbn [w_visible]. by rewrite Hdp.
  - rewrite run_closeIconOnClick. cbn zeta. cbn [w_trace call_trace].
    apply in_or_app. right. right. by left.
  - rewrite run_closeIconOnClick. cbn zeta. cbn [w_trace]. rewrite Hdp.
    by destruct origin.
  - intros cb' e' v' j. rewrite run_closeIconOnClick. cbn zeta. cbn [w_trace].
    destruct (defaultPrevented (at_check origin (Some cb') e')) eqn:Hdp'.
    + by destruct origin.
    + intros Hj. split; [done|].
      destruct origin; cbn in Hj |- *; injection Hj as <-;
        eexists; (split; [reflexivity | lia]).
Qed.

End CloseControl.

Section Visibility.

Import Click ClickFacts Runtime RuntimeFacts TagClassFacts.

Context `{TagImports}.
Variable env : NodeEnv.
Variable ctx : ConfigConsumerProps.
Variable ref : option Ref.

(** C2 (as the code has it). A tag rendered without the [visible] prop
    starts with its state [true]. When it has no [onClose] either, a click
    on the close control whose event is not default-prevented when
    [handleCloseClick] gets it sets the state to [false], and what is then
    returned is [wrapCSSVar] of the tag [span], alone or in its [<Wave>],
    whose class names hold the hidden class. A click whose event is
    prevented by then (it arrived so, or the own [onClick] of the close
    icon prevented it) leaves the instance as it was. *)
Theorem close_click_without_callback_hides
    (p0 : TagProps) (steps : list Step) (origin : option Callback) (e : MouseEvent) :
  let m := run_steps env ctx ref (start env ctx ref p0) steps in
  Props.visible (Props.props (cur_props m)) = Absent ->
  Props.onClose (cur_props m) = None ->
  let m' := step env ctx ref m (CloseClick origin e) in
  let p := cur_props m in
  cur_props m' = p
  /\ (defaultPrevented (after_call origin e) = false ->
      state (fiber m') = JS.Boolean false
      /\ exists inner ps kids classes,
           output (cur m') = wrapCSSVar (styleHook ctx p) inner
           /\ (inner = RElement (Host "span") ps kids
               \/ inner = wave (RElement (Host "span") ps kids))
           /\ ep_className ps = Some (String.concat " " classes)
           /\ In (prefixCls ctx p ++ "-hidden") classes)
  /\ (defaultPrevented (after_call origin e) = true -> m' = m)
  /\ (Props.visible (Props.props p0) = Absent ->
      state (fiber (start env ctx ref p0)) = JS.Boolean true).
Proof.
  intros m Hv Hc m' p.
  assert (Hm : settled env ctx ref m) by apply reachable_settled.
  assert (Hm' : settled env ctx ref m') by by apply click_settled.
  assert (Hp : cur_props m' = p) by apply click_props.
  assert (Hcheck : at_check origin None e = at_onClose origin e) by done.
  split_and!; [done | | | ].
  - intros He.
    assert (Hst : state (fiber m') = JS.Boolean false).
    { subst m'. cbn [step]. rewrite click_state by done.
      rewrite Hc, run_closeIconOnClick. cbn zeta. cbn [w_visible].
      rewrite Hcheck. unfold at_onClose. cbn [apply_op defaultPrevented].
      by rewrite He. }
    split; [done|].
    destruct Hm' as [Hcur _]. rewrite Hcur, Hp, Hst.
    cbn [output InternalTag]. unfold returned, feedback.
    eexists _, _, _, (ClassNames.class_list (tagClassArgs ctx p (JS.Boolean false))).
    split; [reflexivity|]. split_and!.
    + destruct (isNeedWave p); [right | left]; reflexivity.
    + reflexivity.
    + apply switch_class. by rewrite hidden_value.
  - intros He. subst m'. cbn [step]. unfold click.
    rewrite Hc, run_closeIconOnClick. cbn zeta. cbn [w_visible].
    rewrite Hcheck. unfold at_onClose. cbn [apply_op defaultPrevented].
    by rewrite He, same_refl.
  - intros Hv0. unfold start. rewrite render_pass_state. by rewrite Hv0.
Qed.

(** The state after a render of a tag with the [visible] prop. *)
Lemma controlled_render_state (m0 : Mounted) (p : TagProps) :
  settled env ctx ref m0 -> controlled p ->
  state (fiber (step env ctx ref m0 (Render p)))
  = if JS.same (supplied (cur_props m0)) (supplied p)
    then state (fiber m0) else supplied p.
Proof.
  intros [_ Hd] Hp. cbn [step]. rewrite render_pass_state, Hd.
  cbn [deps_changed]. unfold controlled, supplied in *.
  destruct (JS.same _ _); cbn [negb]; [done|].
  by destruct (Props.visible (Props.props p)).
Qed.

(** The state after a click on the close control. *)
Lemma close_click_state (m0 : Mounted) (origin : option Callback) (e : MouseEvent) :
  settled env ctx ref m0 ->
  state (fiber (step env ctx ref m0 (CloseClick origin e)))
  = if defaultPrevented (at_check origin (Props.onClose (cur_props m0)) e)
    then state (fiber m0) else JS.Boolean false.
Proof.
  intros Hm0. cbn [step]. rewrite click_state by done.
  by rewrite run_closeIconOnClick.
Qed.

Lemma supplied_or_false_invariant (steps : list Step) :
  Forall controlled_step steps ->
  forall m0 : Mounted,
    settled env ctx ref m0 ->
    state (fiber m0) = supplied (cur_props m0) \/ state (fiber m0) = JS.Boolean false ->
    let m1 := run_steps env ctx ref m0 steps in
    state (fiber m1) = supplied (cur_props m1) \/ state (fiber m1) = JS.Boolean false.
Proof.
  unfold run_steps.
  induction 1 as [|s steps Hs _ IH]; intros m0 Hm0 Hor; cbn; [done|].
  apply IH; [by apply step_settled|].
  destruct s as [p|origin e].
  - rewrite controlled_render_state by done. cbn [step]. rewrite render_pass_props.
    destruct (JS.same _ _) eqn:Hsame; [|by left].
    apply same_eq in Hsame. by rewrite <- Hsame.
  - rewrite close_click_state by done. cbn [step]. rewrite click_props.
    destruct (defaultPrevented _); [done | by right].
Qed.

(** C1 (as the code has it). With the [visible] prop supplied at every
    render, the state is set to the supplied value at mount and at every
    render that supplies a new value, and a render that supplies the same
    value leaves the state alone; a close click whose event is not
    prevented sets the state to [false] all the same. So the state is at
    any time the supplied value or [false]. *)
Theorem controlled_visible_follows_changes (p0 : TagProps) (steps : list Step) :
  controlled p0 ->
  Forall controlled_step steps ->
  let m := run_steps env ctx ref (start env ctx ref p0) steps in
  (state (fiber m) = supplied (cur_props m) \/ state (fiber m) = JS.Boolean false)
  /\ state (fiber (start env ctx ref p0)) = supplied p0
  /\ (forall p, controlled p -> supplied p <> supplied (cur_props m) ->
        state (fiber (step env ctx ref m (Render p))) = supplied p)
  /\ (forall p, controlled p -> supplied p = supplied (cur_props m) ->
        state (fiber (step env ctx ref m (Render p))) = state (fiber m))
  /\ (forall origin e,
        defaultPrevented (at_check origin (Props.onClose (cur_props m)) e) = false ->
        state (fiber (step env ctx ref m (CloseClick origin e))) = JS.Boolean false).
Proof.
  intros Hp0 Hsteps m.
  assert (Hstart : state (fiber (start env ctx ref p0)) = supplied p0).
  { unfold start. rewrite render_pass_state. cbn [mount last_deps deps_changed].
    unfold controlled, supplied in *. by destruct (Props.visible (Props.props p0)). }
  assert (Hm : settled env ctx ref m) by apply reachable_settled.
  split_and!; [ | done | | | ].
  - apply supplied_or_false_invariant; [done | apply render_pass_settled |].
    left. rewrite Hstart. unfold start. by rewrite render_pass_props.
  - intros p Hp Hne. rewrite controlled_render_state by done.
    destruct (JS.same _ _) eqn:Hsame; [|done].
    apply same_eq in Hsame. by rewrite Hsame in Hne.
  - intros p Hp Heq. rewrite controlled_render_state by done.
    by rewrite <- Heq, same_refl.
  - intros origin e He. by rewrite close_click_state, He.
Qed.

End Visibility.

(** ** The inline style *)

Lemma spread_lookup (a : CSSProperties) (b : option CSSProperties) (k : string) :
  spread a b !! k = match b ≫= (.!! k) with
                    | Some v => Some v
                    | None => a !! k
                    end.
Proof.
  destruct b as [b|]; simpl; [|done].
  destruct (b !! k) as [v|] eqn:Hb.
  - by apply lookup_union_Some_l.
  - by apply lookup_union_r.
Qed.

Lemma defines_false (s : option CSSProperties) (k : string) :
  defines s k = false -> s ≫= (.!! k) = None.
Proof.
  destruct s as [s|]; simpl; [|done].
  intros Hd. apply bool_decide_eq_false in Hd.
  destruct (s !! k) eqn:E; [|done]. exfalso. apply Hd. by eexists.
Qed.

Section Rendering.

Import ClassNames ClassNamesFacts TagClassFacts.

Context `{TagImports}.
Variable ctx : ConfigConsumerProps.
Variable tagProps : TagProps.
Variable ref : option Ref.
Variable visible : JS.OptBool.

(** The tag is a [span] that carries the class names and the style. *)
Lemma tagNode_shape :
  exists ps kids,
    tagNode ctx tagProps ref visible = RElement (Host "span") ps kids
    /\ ep_className ps
       = Some (String.concat " " (class_list (tagClassArgs ctx tagProps visible)))
    /\ ep_style ps = Some (tagStyle ctx tagProps).
Proof. by eexists _, _. Qed.

(** The background of the tag: the style prop decides if it defines the
    property, else the style of the context, else the color. *)
Lemma tagStyle_background :
  tagStyle ctx tagProps !! "backgroundColor"
  = match Props.style tagProps ≫= (.!! "backgroundColor") with
    | Some v => Some v
    | None =>
        match (tag ctx ≫= tag_style) ≫= (.!! "backgroundColor") with
        | Some v => Some v
        | None => Some (if isCustomColor tagProps then Props.color tagProps else None)
        end
    end.
Proof. unfold tagStyle. by rewrite !spread_lookup, lookup_singleton_eq. Qed.

(** C4. For a color classified as a preset or a status color (by
    classifiers that take none of the four other class switches for a
    color), the class list of the tag has the class made of the prefix and
    the color, and the color sets no background: the background of the
    inline style is the one the style of the context and the style prop set
    by themselves, none when they define none. *)
Theorem preset_color_class_and_no_background (c : string) :
  palette_apart ->
  Props.color tagProps = Some c ->
  isPresetColor (Some c) = true \/ isPresetStatusColor (Some c) = true ->
  In (prefixCls ctx tagProps ++ "-" ++ c) (class_list (tagClassArgs ctx tagProps visible))
  /\ backgroundColor (tagStyle ctx tagProps)
     = backgroundColor (spread (spread ∅ (tag ctx ≫= tag_style)) (Props.style tagProps))
  /\ (defines (Props.style tagProps) "backgroundColor" = false ->
      defines (tag ctx ≫= tag_style) "backgroundColor" = false ->
      backgroundColor (tagStyle ctx tagProps) = None)
  /\ exists ps kids,
       tagNode ctx tagProps ref visible = RElement (Host "span") ps kids
       /\ ep_className ps
          = Some (String.concat " " (class_list (tagClassArgs ctx tagProps visible)))
       /\ ep_style ps = Some (tagStyle ctx tagProps).
Proof.
  intros Hapart Hc Hpreset.
  assert (Hother : ~ In c otherSwitches).
  { intros Hin. destruct (Hapart c Hin) as [Hp Hs].
    destruct Hpreset as [Hpreset|Hpreset]; congruence. }
  assert (Hint : isInternalColor tagProps = true).
  { unfold isInternalColor, isPreset, isStatus. rewrite Hc.
    destruct Hpreset as [-> | ->]; [done | apply orb_true_r]. }
  assert (Hcustom : isCustomColor tagProps = false).
  { unfold isCustomColor. rewrite Hint. apply andb_false_r. }
  split_and!.
  - apply switch_class. by rewrite (color_value _ _ _ c), Hint.
  - unfold backgroundColor. rewrite tagStyle_background, Hcustom, !spread_lookup.
    destruct (Props.style tagProps ≫= _); [done|].
    by destruct ((tag ctx ≫= tag_style) ≫= _).
  - intros Hs Hcs. unfold backgroundColor.
    by rewrite tagStyle_background, Hcustom, (defines_false _ _ Hs), (defines_false _ _ Hcs).
  - apply tagNode_shape.
Qed.

(** C5 (as the code has it). For a non-empty color that is neither a
    preset nor a status color, the color is the background the style of
    the context and the style prop are spread over: it is the background
    of the inline style unless one of them defines the property. The class
    list has the has-color class, and the class switches give no class of
    a preset or status color (for classifiers that take none of the other
    switches for a color). *)
Theorem custom_color_background_unless_overridden (c : string) :
  Props.color tagProps = Some c ->
  c <> "" ->
  isPresetColor (Some c) = false ->
  isPresetStatusColor (Some c) = false ->
  tagStyle ctx tagProps
  = spread (spread {[ "backgroundColor" := Some c ]} (tag ctx ≫= tag_style))
      (Props.style tagProps)
  /\ (defines (Props.style tagProps) "backgroundColor" = false ->
      defines (tag ctx ≫= tag_style) "backgroundColor" = false ->
      backgroundColor (tagStyle ctx tagProps) = Some c)
  /\ In (prefixCls ctx tagProps ++ "-has-color")
       (class_list (tagClassArgs ctx tagProps visible))
  /\ (palette_apart ->
      forall c', isPresetColor (Some c') = true \/ isPresetStatusColor (Some c') = true ->
        ~ In (prefixCls ctx tagProps ++ "-" ++ c')
            (arg_classes (Obj (switches ctx tagProps visible))))
  /\ exists ps kids,
       tagNode ctx tagProps ref visible = RElement (Host "span") ps kids
       /\ ep_className ps
          = Some (String.concat " " (class_list (tagClassArgs ctx tagProps visible)))
       /\ ep_style ps = Some (tagStyle ctx tagProps).
Proof.
  intros Hc Hne Hp Hs.
  assert (Hint : isInternalColor tagProps = false).
  { unfold isInternalColor, isPreset, isStatus. by rewrite Hc, Hp, Hs. }
  assert (Hcustom : isCustomColor tagProps = true).
  { unfold isCustomColor. rewrite Hint, Hc. simpl.
    apply String.eqb_neq in Hne. by rewrite Hne. }
  split_and!.
  - unfold tagStyle. by rewrite Hcustom, Hc.
  - intros Hst Hcs. unfold backgroundColor.
    by rewrite tagStyle_background, Hcustom, (defines_false _ _ Hst),
      (defines_false _ _ Hcs), Hc.
  - apply switch_class. by rewrite has_color_value, Hcustom.
  - intros Hapart c' Hc' Hin.
    apply switch_classes_are in Hin as [[_ Hint']|(m & Hm & Heq)]; [congruence|].
    apply append_inj_r, (append_inj_r "-") in Heq. subst c'.
    destruct (Hapart m Hm) as [Hpm Hsm]. destruct Hc'; congruence.
  - apply tagNode_shape.
Qed.

End Rendering.

(** ** Content, feedback and warnings *)

Section Composition.

Context `{TagImports}.
Variable ctx : ConfigConsumerProps.
Variable tagProps : TagProps.
Variable ref : option Ref.
Variable visible : JS.OptBool.

Lemma type_is_a_link (n : ReactNode) : type_is_a n = true <-> is_link n.
Proof.
  unfold is_link. split.
  - destruct n as [| | | | |[t| |] ps kids|]; simpl; try done.
    intros Ht. apply String.eqb_eq in Ht. subst. by eexists _, _.
  - by intros (ps & kids & ->).
Qed.

Lemma link_truthy (n : ReactNode) : is_link n -> React.truthy n = true.
Proof. by intros (ps & kids & ->). Qed.

(** C7. What [InternalTag] returns is [wrapCSSVar] of a node that is a
    [<Wave>] element exactly when an [onClick] is supplied or the child of
    the tag is a link element; that node is then the [<Wave>] around the
    tag node, and the tag node itself, a [span], otherwise. *)
Theorem wave_exactly_when_clickable_or_link :
  let clickable := is_Some (Props.onClick (Props.props tagProps)) in
  let inner := feedback ctx tagProps ref visible in
  let node := tagNode ctx tagProps ref visible in
  returned ctx tagProps ref visible = wrapCSSVar (styleHook ctx tagProps) inner
  /\ (is_wave inner = true <-> clickable \/ is_link (Props.children tagProps))
  /\ (clickable \/ is_link (Props.children tagProps) -> inner = wave node)
  /\ (~ (clickable \/ is_link (Props.children tagProps)) -> inner = node)
  /\ is_wave node = false.
Proof.
  intros clickable inner node.
  assert (Hneed : isNeedWave tagProps = true
                  <-> clickable \/ is_link (Props.children tagProps)).
  { unfold isNeedWave. rewrite orb_true_iff, andb_true_iff, bool_decide_eq_true.
    rewrite type_is_a_link. split; intros [Hc|Hl]; [by left | right; tauto | by left |].
    right. split; [by apply link_truthy | done]. }
  subst inner. unfold feedback. split_and!; [done | | | | done].
  - destruct (isNeedWave tagProps); simpl; [tauto|].
    split; [done|]. intros Hor. by apply Hneed in Hor.
  - intros Hor. apply Hneed in Hor. by rewrite Hor.
  - intros Hnot. destruct (isNeedWave tagProps); [|done].
    exfalso. apply Hnot. by apply Hneed.
Qed.

(** C9. The content of the tag, its first child: with an icon (a truthy
    [icon]) it is one fragment of the icon followed by the children in a
    [span], or by the children as they are when they are empty (falsy);
    without an icon it is the children themselves. *)
Theorem icon_and_children_composed :
  let icon := Props.icon tagProps in
  let children := Props.children tagProps in
  (React.truthy icon = true -> React.truthy children = true ->
     kids tagProps
     = RElement Fragment no_props [icon; RElement (Host "span") no_props [children]])
  /\ (React.truthy icon = true -> React.truthy children = false ->
        kids tagProps = RElement Fragment no_props [icon; children])
  /\ (React.truthy icon = false -> kids tagProps = children)
  /\ exists ps rest,
       tagNode ctx tagProps ref visible = RElement (Host "span") ps (kids tagProps :: rest).
Proof.
  intros icon children. unfold kids, iconNode, or_else, and_then.
  fold icon. fold children. split_and!.
  - intros Hi Hc. by rewrite Hi, Hi, Hc.
  - intros Hi Hc. by rewrite Hi, Hi, Hc.
  - intros Hi. by rewrite Hi.
  - by eexists _, _.
Qed.

End Composition.

Section Warnings.

Import Runtime RuntimeFacts.

Context `{TagImports}.
Variable ctx : ConfigConsumerProps.
Variable ref : option Ref.

Lemma render_pass_alike (env1 env2 : NodeEnv) (p : TagProps) (f : Fiber) :
  alike (render_pass env1 ctx ref p f) (render_pass env2 ctx ref p f).
Proof.
  unfold alike, render_pass, commit. rewrite !deps_InternalTag.
  cbn [effect InternalTag].
  by destruct (JS.same _ _).
Qed.

Lemma step_alike (env1 env2 : NodeEnv) (m1 m2 : Mounted) (s : Step) :
  alike m1 m2 -> alike (step env1 ctx ref m1 s) (step env2 ctx ref m2 s).
Proof.
  intros (Hp & Hf & Hrest). destruct s as [p|origin e]; cbn [step].
  - rewrite Hf. apply render_pass_alike.
  - unfold click. rewrite Hp, Hf.
    destruct (JS.same _ _); [done | apply render_pass_alike].
Qed.

Lemma run_steps_alike (env1 env2 : NodeEnv) (steps : list Step) (m1 m2 : Mounted) :
  alike m1 m2 -> alike (run_steps env1 ctx ref m1 steps) (run_steps env2 ctx ref m2 steps).
Proof.
  unfold run_steps. revert m1 m2.
  induction steps as [|s steps IH]; intros m1 m2 Hm; cbn [fold_left]; [done|].
  by apply IH, step_alike.
Qed.

(** C8. A production build prints no warning, so a render that prints one
    is not a production render; and the build changes nothing else: for
    the same props and state a render returns the same node and registers
    the same effect in both builds, and two instances that receive the
    same renders and clicks, one in each build, have at every time the
    same props, hook state and node on display. *)
Theorem deprecation_warning_is_advisory
    (tagProps : TagProps) (visible : JS.OptBool) (p0 : TagProps) (steps : list Step) :
  printed (InternalTag Production ctx tagProps ref visible) = []
  /\ (forall env, printed (InternalTag env ctx tagProps ref visible) <> [] ->
        env = Development)
  /\ (forall env1 env2,
        output (InternalTag env1 ctx tagProps ref visible)
        = output (InternalTag env2 ctx tagProps ref visible)
        /\ effect (InternalTag env1 ctx tagProps ref visible)
           = effect (InternalTag env2 ctx tagProps ref visible)
        /\ deps (InternalTag env1 ctx tagProps ref visible)
           = deps (InternalTag env2 ctx tagProps ref visible))
  /\ (forall env1 env2,
        alike (run_steps env1 ctx ref (start env1 ctx ref p0) steps)
              (run_steps env2 ctx ref (start env2 ctx ref p0) steps)).
Proof.
  split_and!.
  - done.
  - intros [|]; [done | done].
  - done.
  - intros env1 env2. apply run_steps_alike, render_pass_alike.
Qed.

End Warnings.

Section CloseAffordance.

Context `{TagImports}.
Variable ctx : ConfigConsumerProps.
Variable tagProps : TagProps.
Variable ref : option Ref.
Variable visible : JS.OptBool.

(** C6. With [closable] and [closeIcon] omitted (and [useClosable] as the
    spec has it), no close control is rendered: the slot of the close icon
    in the tag node holds [null], neither the tag node nor the two nodes
    after that slot are close controls, and what is returned is
    [wrapCSSVar] of that tag node, alone or in its [<Wave>]. *)
Theorem no_close_control_when_closable_omitted :
  useClosable = UseClosable.useClosable ->
  Props.closable tagProps = ClosableOmitted ->
  Props.closeIcon tagProps = RUndefined ->
  mergedCloseIcon ctx tagProps = RNull
  /\ (exists ps preset status,
        tagNode ctx tagProps ref visible
        = RElement (Host "span") ps [kids tagProps; RNull; preset; status]
        /\ is_close_control preset = false
        /\ is_close_control status = false)
  /\ is_close_control (tagNode ctx tagProps ref visible) = false
  /\ is_close_control (feedback ctx tagProps ref visible) = false
  /\ output (InternalTag Production ctx tagProps ref visible)
     = wrapCSSVar (styleHook ctx tagProps) (feedback ctx tagProps ref visible)
  /\ (feedback ctx tagProps ref visible = tagNode ctx tagProps ref visible
      \/ feedback ctx tagProps ref visible = wave (tagNode ctx tagProps ref visible)).
Proof.
  intros Huse Hclosable Hicon.
  assert (Hnull : mergedCloseIcon ctx tagProps = RNull).
  { unfold mergedCloseIcon. rewrite Huse, Hclosable, Hicon. reflexivity. }
  assert (Hnode : is_close_control (tagNode ctx tagProps ref visible) = false).
  { unfold tagNode. cbn. by destruct (Props.onClick (Props.props tagProps)). }
  split_and!; [done | | done | | done | ].
  - unfold tagNode. rewrite Hnull. eexists _, _, _. split; [reflexivity|].
    unfold when. by destruct (isPreset tagProps), (isStatus tagProps).
  - unfold feedback. by destruct (isNeedWave tagProps).
  - unfold feedback. destruct (isNeedWave tagProps); [by right | by left].
Qed.

End CloseAffordance.

(** * The component on concrete inputs *)

Module Examples.

Import Runtime.

#[local] Existing Instance Antd.imports.

(** [<Tag visible closable>], closed by a click, then hidden by the host:
    the hypotheses of the synchronisation theorem hold, and so does what
    it says. *)
Lemma controlled_visible_follows_changes_witness :
  let steps := [CloseClick None fresh; Render (Antd.controlledTag false)] in
  let m := run_steps Development Antd.defaultContext None
             (start Development Antd.defaultContext None (Antd.controlledTag true))
             steps in
  controlled (Antd.controlledTag true)
  /\ Forall controlled_step steps
  /\ (state (fiber m) = supplied (cur_props m) \/ state (fiber m) = JS.Boolean false).
Proof.
  assert (Hc : controlled (Antd.controlledTag true)) by reflexivity.
  assert (Hs : Forall controlled_step
                 [CloseClick None fresh; Render (Antd.controlledTag false)]).
  { repeat constructor. }
  split; [exact Hc|]. split; [exact Hs|].
  exact (proj1 (controlled_visible_follows_changes Development Antd.defaultContext None
                  _ _ Hc Hs)).
Defined.

(** C1 fails as stated: [<Tag visible closable>] is rendered, and its close
    control clicked. The [visible] prop is there and [true], yet the state
    is [false] and the tag on display has the hidden class. *)
Lemma controlled_visible_not_mirrored :
  let p := Antd.controlledTag true in
  let m := run_steps Development Antd.defaultContext None
             (start Development Antd.defaultContext None p)
             [CloseClick None fresh] in
  in_props (Props.visible (Props.props p)) = true
  /\ cur_props m = p
  /\ supplied (cur_props m) = JS.Boolean true
  /\ state (fiber m) = JS.Boolean false
  /\ ~ mirrors m
  /\ output (cur m) = returned Antd.defaultContext p None (JS.Boolean false)
  /\ In "ant-tag-hidden"
       (ClassNames.class_list (tagClassArgs Antd.defaultContext p (state (fiber m)))).
Proof.
  cbv zeta. split_and!; try reflexivity.
  - unfold mirrors. vm_compute. discriminate.
  - vm_compute. tauto.
Qed.

(** [<Tag closable>], just mounted, clicked on its close control. *)
Lemma close_click_without_callback_hides_witness :
  let m := start Development Antd.defaultContext None Antd.closableTag in
  let m' := step Development Antd.defaultContext None m (CloseClick None fresh) in
  Props.visible (Props.props (cur_props m)) = Absent
  /\ Props.onClose (cur_props m) = None
  /\ defaultPrevented (Click.after_call None fresh) = false
  /\ state (fiber m') = JS.Boolean false.
Proof.
  split; [reflexivity|]. split; [reflexivity|]. split; [reflexivity|].
  pose proof (close_click_without_callback_hides Development Antd.defaultContext None
                Antd.closableTag [] None fresh eq_refl eq_refl) as (_ & Hhide & _).
  exact (proj1 (Hhide eq_refl)).
Defined.

(** C2 fails as stated: [<Tag closable>], with neither [visible] nor
    [onClose], mounted and clicked on its close control. When the close
    icon is an element whose own [onClick] calls [preventDefault] (the
    handler lines 120-126 give it calls that [onClick] first), or when the
    click arrives already prevented, the state stays [true] and the tag
    keeps no hidden class among its switch classes. *)
Lemma close_click_kept_by_prevented_event :
  let p := Antd.closableTag in
  let m := start Development Antd.defaultContext None p in
  let byIcon := step Development Antd.defaultContext None m
                  (CloseClick (Some Samples.preventing) fresh) in
  let arrived := step Development Antd.defaultContext None m
                   (CloseClick None Samples.preventedClick) in
  Props.visible (Props.props p) = Absent
  /\ Props.onClose p = None
  /\ state (fiber m) = JS.Boolean true
  /\ state (fiber byIcon) = JS.Boolean true
  /\ state (fiber arrived) = JS.Boolean true
  /\ ~ In "ant-tag-hidden"
         (ClassNames.arg_classes
            (ClassNames.Obj (switches Antd.defaultContext p (state (fiber byIcon)))))
  /\ (exists t ps kids,
        customCloseIconRender Antd.defaultContext p Samples.preventingIcon
        = RElement t ps kids
        /\ ep_onClick ps
           = Some (CloseIconClick (Some (UserHandler Samples.preventing)) None))
  /\ Click.w_visible
       (Click.run
          (Click.dispatch (CloseIconClick (Some (UserHandler Samples.preventing)) None))
          fresh (JS.Boolean true))
     = JS.Boolean true.
Proof.
  cbv zeta. split_and!; try reflexivity.
  - vm_compute. tauto.
  - by eexists _, _, _.
Qed.

(** [<Tag closable onClose={(e) => e.preventDefault()}>], clicked. *)
Lemma prevented_close_click_keeps_tag_witness :
  let m := start Development Antd.defaultContext None Antd.keptTag in
  Props.onClose (cur_props m) = Some (fun _ => [PreventDefault])
  /\ In PreventDefault [PreventDefault]
  /\ step Development Antd.defaultContext None m (CloseClick None fresh) = m.
Proof.
  split; [reflexivity|]. split; [by left|].
  exact (proj1 (prevented_close_click_keeps_tag Development Antd.defaultContext None
                  (start Development Antd.defaultContext None Antd.keptTag) None fresh
                  (fun _ => [PreventDefault]) eq_refl (or_introl eq_refl))).
Defined.

(** [<Tag color="blue">]. *)
Lemma preset_color_class_and_no_background_witness :
  let p := Antd.coloredTag "blue" None in
  palette_apart
  /\ (isPresetColor (Some "blue") = true \/ isPresetStatusColor (Some "blue") = true)
  /\ In "ant-tag-blue"
       (ClassNames.class_list (tagClassArgs Antd.defaultContext p (JS.Boolean true)))
  /\ backgroundColor (tagStyle Antd.defaultContext p) = None.
Proof.
  assert (Hapart : palette_apart).
  { intros m [<-|[<-|[<-|[<-|[]]]]]; split; reflexivity. }
  assert (Hpreset : isPresetColor (Some "blue") = true
                    \/ isPresetStatusColor (Some "blue") = true) by (left; reflexivity).
  pose proof (preset_color_class_and_no_background Antd.defaultContext
                (Antd.coloredTag "blue" None) None (JS.Boolean true) "blue"
                Hapart eq_refl Hpreset) as (Hclass & _ & Hnone & _).
  split; [exact Hapart|]. split; [exact Hpreset|]. split; [exact Hclass|].
  exact (Hnone eq_refl eq_refl).
Defined.

(** [<Tag color="#f50">]. *)
Lemma custom_color_background_unless_overridden_witness :
  let p := Antd.coloredTag "#f50" None in
  isPresetColor (Some "#f50") = false
  /\ isPresetStatusColor (Some "#f50") = false
  /\ backgroundColor (tagStyle Antd.defaultContext p) = Some "#f50"
  /\ In "ant-tag-has-color"
       (ClassNames.class_list (tagClassArgs Antd.defaultContext p (JS.Boolean true))).
Proof.
  pose proof (custom_color_background_unless_overridden Antd.defaultContext
                (Antd.coloredTag "#f50" None) None (JS.Boolean true) "#f50"
                eq_refl ltac:(discriminate) eq_refl eq_refl) as (_ & Hbg & Hclass & _).
  split; [reflexivity|]. split; [reflexivity|].
  split; [exact (Hbg eq_refl eq_refl) | exact Hclass].
Defined.

(** C5 fails as stated: [<Tag color="#f50" style={{ backgroundColor: 'red' }}>].
    The color is not empty and is no preset or status color, the class
    list has the has-color class, and the background of the inline style
    is [red], not the color. *)
Lemma custom_color_background_overridden_by_style :
  let p := Antd.coloredTag "#f50" (Some {[ "backgroundColor" := Some "red" ]}) in
  Props.color p = Some "#f50"
  /\ isPresetColor (Props.color p) = false
  /\ isPresetStatusColor (Props.color p) = false
  /\ backgroundColor (tagStyle Antd.defaultContext p) = Some "red"
  /\ backgroundColor (tagStyle Antd.defaultContext p) <> Some "#f50"
  /\ In "ant-tag-has-color"
       (ClassNames.class_list (tagClassArgs Antd.defaultContext p (JS.Boolean true))).
Proof.
  cbv zeta. split_and!; try reflexivity.
  - vm_compute. discriminate.
  - vm_compute. tauto.
Qed.

(** [<Tag />] outside any [ConfigProvider]. *)
Lemma no_close_control_when_closable_omitted_witness :
  Props.closable Antd.bare = ClosableOmitted
  /\ Props.closeIcon Antd.bare = RUndefined
  /\ mergedCloseIcon Antd.defaultContext Antd.bare = RNull.
Proof.
  split; [reflexivity|]. split; [reflexivity|].
  exact (proj1 (no_close_control_when_closable_omitted Antd.defaultContext Antd.bare None
                  (JS.Boolean true) eq_refl eq_refl eq_refl)).
Defined.

End Examples.

(** * Further properties of the component *)

Section StateChanges.

Import Click ClickFacts Runtime RuntimeFacts TagClassFacts.

Context `{TagImports}.
Variable env : NodeEnv.
Variable ctx : ConfigConsumerProps.
Variable ref : option Ref.

(** X2. A render changes the [visible] state in one case only: the
    [visible] prop is there and its value differs from the one of the
    previous render (lines 65-69); the state is then that value. A render
    without the prop, or with the same value, leaves the state as it is. *)
Theorem render_changes_state_only_on_new_value
    (p0 : TagProps) (steps : list Step) (p : TagProps) :
  let m := run_steps env ctx ref (start env ctx ref p0) steps in
  state (fiber (step env ctx ref m (Render p)))
  = if in_props (Props.visible (Props.props p))
       && negb (JS.same (supplied (cur_props m)) (supplied p))
    then supplied p
    else state (fiber m).
Proof.
  intros m. destruct (reachable_settled env ctx ref p0 steps) as [_ Hd]. fold m in Hd.
  cbn [step]. rewrite render_pass_state, Hd. cbn [deps_changed]. unfold supplied.
  destruct (Props.visible (Props.props p)) as [|w]; cbn [in_props read andb].
  - by destruct (negb _).
  - by destruct (negb _).
Qed.

(** X9. A click on the close control never shows a hidden tag: after it the
    state is truthy only if it was truthy before and the event was
    prevented when line 105 read it. *)
Theorem close_click_never_shows
    (p0 : TagProps) (steps : list Step) (origin : option Callback) (e : MouseEvent) :
  let m := run_steps env ctx ref (start env ctx ref p0) steps in
  JS.truthy (state (fiber (step env ctx ref m (CloseClick origin e))))
  = JS.truthy (state (fiber m))
    && defaultPrevented (at_check origin (Props.onClose (cur_props m)) e).
Proof.
  intros m. cbn [step]. rewrite click_state by apply reachable_settled.
  rewrite run_closeIconOnClick. cbn zeta. cbn [w_visible].
  destruct (defaultPrevented _); [by rewrite andb_true_r | by rewrite andb_false_r].
Qed.

Lemma uncontrolled_step_hidden (m : Mounted) (s : Step) :
  settled env ctx ref m ->
  uncontrolled_step s ->
  JS.truthy (state (fiber m)) = false ->
  JS.truthy (state (fiber (step env ctx ref m s))) = false.
Proof.
  intros Hm Hs Hhid. destruct s as [p|origin e]; cbn [step].
  - rewrite render_pass_state. cbn in Hs. rewrite Hs. by destruct (deps_changed _ _).
  - rewrite click_state, run_closeIconOnClick by done. cbn zeta. cbn [w_visible].
    by destruct (defaultPrevented _).
Qed.

Lemma uncontrolled_run_hidden (steps : list Step) :
  Forall uncontrolled_step steps ->
  forall m : Mounted,
    settled env ctx ref m ->
    JS.truthy (state (fiber m)) = false ->
    JS.truthy (state (fiber (run_steps env ctx ref m steps))) = false.
Proof.
  unfold run_steps.
  induction 1 as [|s steps Hs _ IH]; intros m Hm Hhid; cbn [fold_left]; [done|].
  apply IH; [by apply step_settled | by apply uncontrolled_step_hidden].
Qed.

(** X1. Closing is permanent while the host does not supply [visible]: from
    an instance whose state is falsy, no sequence of renders without the
    [visible] prop and of clicks on the close control makes the state
    truthy again, and the tag then on display carries the hidden class. *)
Theorem uncontrolled_close_is_permanent
    (p0 : TagProps) (before after : list Step) :
  let m := run_steps env ctx ref (start env ctx ref p0) before in
  let m' := run_steps env ctx ref m after in
  JS.truthy (state (fiber m)) = false ->
  Forall uncontrolled_step after ->
  JS.truthy (state (fiber m')) = false
  /\ cur m' = InternalTag env ctx (cur_props m') ref (state (fiber m'))
  /\ In (prefixCls ctx (cur_props m') ++ "-hidden")
       (ClassNames.class_list (tagClassArgs ctx (cur_props m') (state (fiber m')))).
Proof.
  intros m m' Hhid Hafter.
  assert (Hm : settled env ctx ref m) by apply reachable_settled.
  assert (Hm' : settled env ctx ref m') by by apply run_steps_settled.
  assert (Hhid' : JS.truthy (state (fiber m')) = false)
    by by apply uncontrolled_run_hidden.
  split_and!; [done | by destruct Hm' | ].
  apply switch_class. by rewrite hidden_value, Hhid'.
Qed.

(** X3. [visible={undefined}] hides the tag: when the prop is there and
    holds [undefined], the effect of the first render copies [undefined]
    into the state, and the tag on display carries the hidden class. *)
Theorem undefined_visible_hides (p : TagProps) :
  Props.visible (Props.props p) = Present JS.Undefined ->
  let m := start env ctx ref p in
  state (fiber m) = JS.Undefined
  /\ cur m = InternalTag env ctx p ref JS.Undefined
  /\ In (prefixCls ctx p ++ "-hidden")
       (ClassNames.class_list (tagClassArgs ctx p JS.Undefined)).
Proof.
  intros Hv m.
  assert (Hst : state (fiber m) = JS.Undefined).
  { subst m. unfold start. by rewrite render_pass_state, Hv. }
  assert (Hp : cur_props m = p) by apply render_pass_props.
  destruct (render_pass_settled env ctx ref p mount) as [Hcur _].
  split_and!; [done | | ].
  - subst m. unfold start in *. by rewrite Hcur, Hp, Hst.
  - apply switch_class. by rewrite hidden_value.
Qed.

(** X12. Rendering again with the same props changes nothing that shows:
    the second pass finds the dependencies of the effect unchanged, and
    the instance it leaves is like the one the first pass left (same props,
    same hook state, same node returned, same effect), whatever the
    instance was before. *)
Theorem rerender_same_props_is_idempotent (m : Mounted) (p : TagProps) :
  alike (step env ctx ref (step env ctx ref m (Render p)) (Render p))
        (step env ctx ref m (Render p)).
Proof.
  cbn [step].
  destruct (render_pass_settled env ctx ref p (fiber m)) as [Hcur Hd].
  pose proof (render_pass_props env ctx ref p (fiber m)) as Hp.
  destruct (render_pass env ctx ref p (fiber m)) as [p1 r1 f1].
  cbn [cur_props cur fiber] in *. subst p1.
  unfold alike, render_pass, commit. rewrite deps_InternalTag, Hd.
  cbn [deps_changed]. rewrite !same_refl. cbn [negb cur_props cur fiber].
  by rewrite Hcur.
Qed.

End StateChanges.

Section ClassesAndStyle.

Import ClassNames ClassNamesFacts TagClassFacts.

Context `{TagImports}.
Variable ctx : ConfigConsumerProps.
Variable tagProps : TagProps.
Variable visible : JS.OptBool.

Lemma rtl_value :
  last_value (prefixCls ctx tagProps ++ "-rtl") (switches ctx tagProps visible)
  = Some (match direction ctx with Some Rtl => true | _ => false end).
Proof.
  unfold last_value, switches. cbn [fold_left fst snd].
  by rewrite !eqb_append_l.
Qed.

Lemma borderless_value :
  last_value (prefixCls ctx tagProps ++ "-borderless") (switches ctx tagProps visible)
  = Some (negb (bordered tagProps)).
Proof.
  unfold last_value, switches. cbn [fold_left fst snd].
  by rewrite !eqb_append_l.
Qed.

Lemma color_hole_value :
  ~ In (JS.hole (Props.color tagProps)) otherSwitches ->
  last_value (prefixCls ctx tagProps ++ "-" ++ JS.hole (Props.color tagProps))
    (switches ctx tagProps visible)
  = Some (isInternalColor tagProps).
Proof.
  intros Hother. set (c := JS.hole (Props.color tagProps)) in *.
  assert (H1 : String.eqb "has-color" c = false).
  { apply String.eqb_neq. intros Heq. apply Hother. rewrite <- Heq. simpl. tauto. }
  assert (H2 : String.eqb "hidden" c = false).
  { apply String.eqb_neq. intros Heq. apply Hother. rewrite <- Heq. simpl. tauto. }
  assert (H3 : String.eqb "rtl" c = false).
  { apply String.eqb_neq. intros Heq. apply Hother. rewrite <- Heq. simpl. tauto. }
  assert (H4 : String.eqb "borderless" c = false).
  { apply String.eqb_neq. intros Heq. apply Hother. rewrite <- Heq. simpl. tauto. }
  unfold last_value, switches. fold c. cbn [fold_left fst snd].
  change "-has-color" with ("-" ++ "has-color").
  change "-hidden" with ("-" ++ "hidden").
  change "-rtl" with ("-" ++ "rtl").
  change "-borderless" with ("-" ++ "borderless").
  rewrite !eqb_append_l.
  by rewrite H1, H2, H3, H4, String.eqb_refl.
Qed.

(** X4. The classes the object literal of lines 88-94 gives, exactly: the
    borderless class when [bordered] is [false], the rtl class when the
    direction is rtl, the hidden class when the state is falsy, the
    has-color class for a non-empty color that is no preset or status
    color, and the class of the color when it is a preset or status color
    and is not spelled like one of the four others (a later entry then
    decides). Nothing else. *)
Theorem switch_classes_exactly (k : string) :
  let P := prefixCls ctx tagProps in
  In k (arg_classes (Obj (switches ctx tagProps visible)))
  <-> (k = P ++ "-borderless" /\ Props.bordered tagProps = Some false)
      \/ (k = P ++ "-rtl" /\ direction ctx = Some Rtl)
      \/ (k = P ++ "-hidden" /\ JS.truthy visible = false)
      \/ (k = P ++ "-has-color" /\ isCustomColor tagProps = true)
      \/ (k = P ++ "-" ++ JS.hole (Props.color tagProps)
          /\ isInternalColor tagProps = true
          /\ ~ In (JS.hole (Props.color tagProps)) otherSwitches).
Proof.
  intros P. cbn [arg_classes]. rewrite object_literal_classes. split.
  - unfold last_value, switches. fold P. cbn [fold_left fst snd].
    destruct (String.eqb_spec (P ++ "-borderless") k) as [<-|N5].
    { intros [= Hb]. left. split; [done|]. unfold bordered in Hb.
      by destruct (Props.bordered tagProps) as [[|]|]. }
    destruct (String.eqb_spec (P ++ "-rtl") k) as [<-|N4].
    { intros [= Hd]. right. left. split; [done|].
      by destruct (direction ctx) as [[|]|]. }
    destruct (String.eqb_spec (P ++ "-hidden") k) as [<-|N3].
    { intros [= Hv]. right. right. left. split; [done|]. by apply negb_true_iff. }
    destruct (String.eqb_spec (P ++ "-has-color") k) as [<-|N2].
    { intros [= Hc]. do 3 right. left. by split. }
    destruct (String.eqb_spec (P ++ "-" ++ JS.hole (Props.color tagProps)) k)
      as [<-|N1]; [|done].
    intros [= Hi]. do 4 right. split_and!; [done | done |].
    intros Hin. simpl in Hin.
    destruct Hin as [Heq|[Heq|[Heq|[Heq|[]]]]]; rewrite <- Heq in *.
    + by apply N2.
    + by apply N3.
    + by apply N4.
    + by apply N5.
  - intros [[-> Hb]|[[-> Hd]|[[-> Hv]|[[-> Hc]|(-> & Hi & Hother)]]]].
    + unfold P. rewrite borderless_value. unfold bordered. by rewrite Hb.
    + unfold P. by rewrite rtl_value, Hd.
    + unfold P. by rewrite hidden_value, Hv.
    + unfold P. by rewrite has_color_value, Hc.
    + unfold P. by rewrite color_hole_value, Hi.
Qed.

Lemma append_nonempty (p s : string) : s <> "" -> p ++ s <> "".
Proof. destruct p; simpl; [done | discriminate]. Qed.

(** X5. The class list of the tag (lines 85-99): it never holds an empty
    class, whatever is [undefined] or empty among the arguments; it keeps
    every non-empty class the host gives in [className] and
    [rootClassName]; and it begins with the prefix class. *)
Theorem class_list_keeps_host_classes :
  Forall (fun c => c <> "") (class_list (tagClassArgs ctx tagProps visible))
  /\ (forall c, c <> "" ->
        Props.className tagProps = Some c \/ Props.rootClassName tagProps = Some c ->
        In c (class_list (tagClassArgs ctx tagProps visible)))
  /\ (prefixCls ctx tagProps <> "" ->
      head (class_list (tagClassArgs ctx tagProps visible)) = Some (prefixCls ctx tagProps)).
Proof.
  assert (Hstr : forall s c, In c (arg_classes (Str s)) -> c <> "").
  { intros [s|] c; cbn; [|done].
    destruct (String.eqb_spec s ""); cbn; [done|]. by intros [<-|[]]. }
  assert (Hkeep : forall c, c <> "" -> arg_classes (Str (Some c)) = [c]).
  { intros c Hc. cbn. apply String.eqb_neq in Hc. by rewrite Hc. }
  split_and!.
  - apply List.Forall_forall. intros c Hin.
    apply in_flat_map in Hin as (a & Ha & Hc).
    unfold tagClassArgs in Ha. simpl in Ha.
    destruct Ha as [<-|[<-|[<-|[<-|[<-|[<-|[<-|[]]]]]]]]; try by eapply Hstr.
    apply switch_classes_are in Hc as [[-> _]|(m & _ & ->)];
      by apply append_nonempty.
  - intros c Hc [Hcls|Hroot].
    + apply (in_class_list _ (Str (Some c))); [|rewrite Hkeep by done; by left].
      unfold tagClassArgs. rewrite Hcls. simpl. tauto.
    + apply (in_class_list _ (Str (Some c))); [|rewrite Hkeep by done; by left].
      unfold tagClassArgs. rewrite Hroot. simpl. tauto.
  - intros Hp. unfold class_list, tagClassArgs. cbn [flat_map].
    by rewrite Hkeep.
Qed.

(** X6. How the inline style is put together (lines 75-79), for every CSS
    property: a property of the [style] prop wins; else one of the style
    of the context; else the property is [backgroundColor], with the
    custom color or [undefined], and nothing for any other property. *)
Theorem style_prop_wins (k : string) :
  tagStyle ctx tagProps !! k
  = match Props.style tagProps ≫= (.!! k) with
    | Some v => Some v
    | None =>
        match (tag ctx ≫= tag_style) ≫= (.!! k) with
        | Some v => Some v
        | None =>
            if String.eqb k "backgroundColor"
            then Some (if isCustomColor tagProps then Props.color tagProps else None)
            else None
        end
    end.
Proof.
  unfold tagStyle. rewrite !spread_lookup.
  destruct (Props.style tagProps ≫= _); [done|].
  destruct ((tag ctx ≫= tag_style) ≫= _); [done|].
  destruct (String.eqb_spec k "backgroundColor") as [->|Hne].
  - by rewrite lookup_singleton_eq.
  - by rewrite lookup_singleton_ne.
Qed.

(** X7. An omitted or empty color is no color: the has-color class is not
    among the switch classes, and the inline style is the one of a tag
    without the color prop, its [backgroundColor] left [undefined] unless
    a style defines it. *)
Theorem empty_color_is_no_color :
  JS.str_truthy (Props.color tagProps) = false ->
  ~ In (prefixCls ctx tagProps ++ "-has-color")
      (arg_classes (Obj (switches ctx tagProps visible)))
  /\ tagStyle ctx tagProps
     = spread (spread {[ "backgroundColor" := None ]} (tag ctx ≫= tag_style))
         (Props.style tagProps)
  /\ (defines (Props.style tagProps) "backgroundColor" = false ->
      defines (tag ctx ≫= tag_style) "backgroundColor" = false ->
      tagStyle ctx tagProps !! "backgroundColor" = Some None).
Proof.
  intros Hc.
  assert (Hcustom : isCustomColor tagProps = false).
  { unfold isCustomColor. by rewrite Hc. }
  split_and!.
  - cbn [arg_classes]. rewrite object_literal_classes, has_color_value, Hcustom.
    discriminate.
  - unfold tagStyle. by rewrite Hcustom.
  - intros Hs Hcs.
    by rewrite tagStyle_background, Hcustom, (defines_false _ _ Hs), (defines_false _ _ Hcs).
Qed.

End ClassesAndStyle.

Section CloseHandlers.

Import Click ClickFacts.

Context `{TagImports}.
Variable ctx : ConfigConsumerProps.
Variable tagProps : TagProps.

(** X8. One click on the close control (lines 101-109): [onClose], when
    there is one, is called exactly once, also when the event arrives
    already prevented; [setVisible] is called at most once, and only with
    [false]; the event is never un-prevented, so an event that arrives
    prevented leaves the state as it was whatever [onClose] does. *)
Theorem close_click_effects
    (origin onClose : option Callback) (e : MouseEvent) (v : JS.OptBool) :
  let w := run (closeIconOnClick origin onClose) e v in
  calls OnClose (w_trace w) = match onClose with Some _ => 1 | None => 0 end
  /\ length (List.filter is_set_visible (w_trace w)) <= 1
  /\ (forall x, In (DidSetVisible x) (w_trace w) -> x = JS.Boolean false)
  /\ (defaultPrevented (after_call origin e) = true ->
      defaultPrevented (w_event w) = true
      /\ w_visible w = v
      /\ index_of is_set_visible (w_trace w) = None).
Proof.
  rewrite run_closeIconOnClick. cbn zeta. cbn [w_event w_visible w_trace].
  split_and!.
  - unfold calls. destruct origin, onClose; cbn [call_trace app];
      destruct (defaultPrevented _); reflexivity.
  - destruct origin, onClose; cbn [call_trace app];
      destruct (defaultPrevented _); cbn; lia.
  - intros x Hin. apply in_app_or in Hin as [Hin|Hin].
    { by destruct origin; simpl in Hin; [destruct Hin as [?|[]]|]. }
    destruct Hin as [?|Hin]; [done|].
    apply in_app_or in Hin as [Hin|Hin].
    + by destruct onClose; simpl in Hin; [destruct Hin as [?|[]]|].
    + destruct (defaultPrevented _); simpl in Hin; [done|].
      by destruct Hin as [[= <-]|[]].
  - intros Harr.
    assert (Hdp : defaultPrevented (at_check origin onClose e) = true).
    { unfold at_check, at_onClose.
      destruct onClose as [g|]; cbn [after_call].
      - apply apply_ops_prevented_from. cbn. exact Harr.
      - cbn. exact Harr. }
    rewrite Hdp. split_and!; [done | done |].
    by destruct origin, onClose.
Qed.

(** X10. A close icon that has an [onClick] of its own (lines 121-124):
    that handler is called first, once, with the event as it was
    dispatched, before the component stops the propagation; when it calls
    [preventDefault] the tag is not hidden, and [onClose] is still called.
    The handler in the tree does just that. *)
Theorem close_icon_own_handler_first
    (f : Callback) (onClose : option Callback) (e : MouseEvent) (v : JS.OptBool) :
  let w := run (closeIconOnClick (Some f) onClose) e v in
  head (w_trace w) = Some (DidCall OriginOnClick e)
  /\ calls OriginOnClick (w_trace w) = 1
  /\ nth_error (w_trace w) 1 = Some DidStopPropagation
  /\ (In PreventDefault (f e) ->
      w_visible w = v /\ calls OnClose (w_trace w) = match onClose with Some _ => 1 | None => 0 end)
  /\ run (dispatch (CloseIconClick (Some (UserHandler f)) onClose)) e v = w.
Proof.
  rewrite run_closeIconOnClick. cbn zeta. cbn [w_event w_visible w_trace call_trace app].
  split_and!.
  - done.
  - unfold calls. destruct onClose; cbn [call_trace app];
      destruct (defaultPrevented _); reflexivity.
  - done.
  - intros Hprev.
    assert (Hdp : defaultPrevented (at_check (Some f) onClose e) = true).
    { unfold at_check, at_onClose.
      assert (Harr : defaultPrevented (after_call (Some f) e) = true)
        by by apply apply_ops_prevented.
      destruct onClose as [g|]; cbn [after_call] in *.
      - apply apply_ops_prevented_from. cbn. exact Harr.
      - cbn. exact Harr. }
    rewrite Hdp. split; [done|]. unfold calls. by destruct onClose.
  - rewrite (dispatch_closeIconClick (Some f)). by rewrite run_closeIconOnClick.
Qed.

(** X11. The close icon as rendered (lines 114-127), for a [replaceElement]
    that answers with the replacement or with the clone: whatever the icon
    node is, the result is an element that is a close control, made for the
    [onClose] of the tag, and the last of its classes is the close-icon
    class; an icon that is no element ends up as the only child of a
    [span]. *)
Theorem close_icon_is_close_control (iconNode : ReactNode) :
  clone_or_replace ->
  let icon := customCloseIconRender ctx tagProps iconNode in
  is_close_control icon = true
  /\ exists t ps kids,
       icon = RElement t ps kids
       /\ (ep_onClick ps = Some (HandleCloseClick (Props.onClose tagProps))
           \/ exists origin,
                ep_onClick ps = Some (CloseIconClick origin (Props.onClose tagProps)))
       /\ (exists cls classes,
             ep_className ps = Some cls
             /\ cls = String.concat " " classes
             /\ last classes = Some (prefixCls ctx tagProps ++ "-close-icon"))
       /\ ((forall t' ps' kids', iconNode <> RElement t' ps' kids') ->
           t = Host "span" /\ kids = [iconNode]).
Proof.
  intros Hre icon. subst icon. unfold customCloseIconRender.
  match goal with |- context [replaceElement ?el ?rep ?f] =>
    destruct (Hre el rep f) as [->|(t & ps & kids & Hel & ->)] end.
  - split; [done|]. eexists _, _, _. split; [reflexivity|]. split_and!.
    + by left.
    + eexists _, [_]. by split_and!.
    + done.
  - split; [done|]. eexists _, _, _. split; [reflexivity|]. split_and!.
    + right. by eexists.
    + cbn [patched ep_className pp_className]. unfold ClassNames.classNames.
      eexists _, _. split; [reflexivity|]. split; [reflexivity|].
      unfold ClassNames.class_list. cbn [flat_map].
      rewrite app_nil_r, last_app.
      assert (Hne : prefixCls ctx tagProps ++ "-close-icon" <> "")
        by by apply append_nonempty.
      cbn. apply String.eqb_neq in Hne. by rewrite Hne.
    + intros Hno. by destruct (Hno _ _ _ Hel).
Qed.

End CloseHandlers.

Section Display.

Import ClassNames Runtime RuntimeFacts TagClassFacts.

Context `{TagImports}.
Variable env : NodeEnv.
Variable ctx : ConfigConsumerProps.
Variable ref : option Ref.

(** X13. What is on display follows the state: after any sequence of
    renders and clicks, the instance shows the render of its current props
    in its current state, its effect last ran for the value of [visible]
    now supplied, and the hidden class is among the switch classes of that
    render exactly when the state is falsy. *)
Theorem display_follows_state (p0 : TagProps) (steps : list Step) :
  let m := run_steps env ctx ref (start env ctx ref p0) steps in
  cur m = InternalTag env ctx (cur_props m) ref (state (fiber m))
  /\ last_deps (fiber m) = Some (supplied (cur_props m))
  /\ (In (prefixCls ctx (cur_props m) ++ "-hidden")
         (arg_classes (Obj (switches ctx (cur_props m) (state (fiber m)))))
      <-> JS.truthy (state (fiber m)) = false).
Proof.
  intros m. destruct (reachable_settled env ctx ref p0 steps) as [Hcur Hd].
  split_and!; [done | done |].
  cbn [arg_classes]. rewrite ClassNamesFacts.object_literal_classes, hidden_value.
  split; [intros [= Hv]; by apply negb_true_iff | by intros ->].
Qed.

End Display.

(** * The further properties on concrete inputs *)

Module MoreExamples.

Import Runtime.

#[local] Existing Instance Antd.imports.

(** [<Tag closable>] closed by a click, then rendered again and clicked
    again. *)
Lemma uncontrolled_close_is_permanent_witness :
  let before := [CloseClick None fresh] in
  let after := [Render Antd.closableTag; CloseClick None fresh] in
  let m := run_steps Development Antd.defaultContext None
             (start Development Antd.defaultContext None Antd.closableTag) before in
  JS.truthy (state (fiber m)) = false
  /\ Forall uncontrolled_step after
  /\ JS.truthy (state (fiber (run_steps Development Antd.defaultContext None m after)))
     = false.
Proof.
  assert (Hafter : Forall uncontrolled_step
                     [Render Antd.closableTag; CloseClick None fresh]).
  { repeat constructor. }
  split; [reflexivity|]. split; [exact Hafter|].
  exact (proj1 (uncontrolled_close_is_permanent Development Antd.defaultContext None
                  Antd.closableTag [CloseClick None fresh]
                  [Render Antd.closableTag; CloseClick None fresh] eq_refl Hafter)).
Defined.

(** [<Tag visible={undefined}>]. *)
Lemma undefined_visible_hides_witness :
  Props.visible (Props.props Samples.undefinedVisible) = Present JS.Undefined
  /\ state (fiber (start Development Antd.defaultContext None Samples.undefinedVisible))
     = JS.Undefined.
Proof.
  split; [reflexivity|].
  exact (proj1 (undefined_visible_hides Development Antd.defaultContext None
                  Samples.undefinedVisible eq_refl)).
Defined.

(** [<Tag color="">]. *)
Lemma empty_color_is_no_color_witness :
  JS.str_truthy (Props.color Samples.emptyColor) = false
  /\ ~ In "ant-tag-has-color"
         (ClassNames.arg_classes
            (ClassNames.Obj
               (switches Antd.defaultContext Samples.emptyColor (JS.Boolean true)))).
Proof.
  split; [reflexivity|].
  exact (proj1 (empty_color_is_no_color Antd.defaultContext Samples.emptyColor
                  (JS.Boolean true) eq_refl)).
Defined.

(** The close icon of [<Tag closable closeIcon="x">]. *)
Lemma close_icon_is_close_control_witness :
  clone_or_replace
  /\ is_close_control (customCloseIconRender Antd.defaultContext Antd.closableTag (RText "x"))
     = true.
Proof.
  assert (Hre : clone_or_replace).
  { intros el rep f. destruct el as [| | | | |t ps kids|]; try (by left).
    right. by eexists _, _, _. }
  split; [exact Hre|].
  exact (proj1 (close_icon_is_close_control Antd.defaultContext Antd.closableTag
                  (RText "x") Hre)).
Defined.

End MoreExamples.
